(** * bleaktyped: the GATT marshalling subsystem

    A shallow embedding of [bleaktyped/marshall.py]: the format registry
    [Table_2904_bytes_format], the pack codec [BleakGATTPackMarshaller], the
    passthrough codec [BleakGATTMarshaller] and the resolver
    [get_marshaller], together with the parts of Python's [struct] module,
    of the built-in conversions and of the UTF-8 codec that they call. *)

From Stdlib Require Import ZArith Lia List String Ascii SpecFloat.
From Stdlib.Strings Require Import Byte.
From stdpp Require Import base option numbers list gmap.

Local Open Scope Z_scope.

(** ** Python values, exceptions and results *)

(** A Python [str] is a sequence of code points; a [bytes] object is a
    sequence of bytes; a [float] is a C double, held as its 64 bits (IEEE 754
    binary64), so that a NaN keeps its sign and payload. *)
Abbreviation pystr := (list Z).
Abbreviation pybytes := (list byte).
Abbreviation pyfloat := Z.

Inductive pyval :=
  | VBool (b : bool)
  | VInt (z : Z)
  | VFloat (f : pyfloat)
  | VStr (s : pystr)
  | VBytes (b : pybytes).

Inductive exn :=
  | NameError
  | AssertionError
  | TypeError
  | AttributeError
  | ValueError
  | OverflowError
  | ZeroDivisionError
  | StructError
  | UnicodeEncodeError
  | UnicodeDecodeError
  | BleakError.

Inductive result (A : Type) :=
  | Ok (a : A)
  | Raise (e : exn).
Arguments Ok {A} a.
Arguments Raise {A} e.

#[export] Instance result_ret : MRet result := fun _ a => Ok a.
#[export] Instance result_bind : MBind result := fun _ _ k r =>
  match r with
  | Ok a => k a
  | Raise e => Raise e
  end.
#[export] Instance result_fmap : FMap result := fun _ _ f r =>
  match r with
  | Ok a => Ok (f a)
  | Raise e => Raise e
  end.

(** ** Bytes and little-endian integers *)

Definition Z_of_byte (b : byte) : Z := Z.of_N (Byte.to_N b).

Definition byte_of_Z (z : Z) : byte :=
  match Byte.of_N (Z.to_N (z mod 256)) with
  | Some b => b
  | None => x00
  end.

(** The [n] low-order bytes of [z], least significant first. *)
Fixpoint le_bytes (n : nat) (z : Z) : pybytes :=
  match n with
  | O => []
  | S k => byte_of_Z z :: le_bytes k (z / 256)
  end.

Fixpoint le_int (bs : pybytes) : Z :=
  match bs with
  | [] => 0
  | b :: r => Z_of_byte b + 256 * le_int r
  end.

(** ** Floating-point numbers

    The value of a double is read off its bits as a [SpecFloat] datum of
    precision 53 and [emax] 1024; operations round to nearest even.  The bit
    patterns are the IEEE 754 interchange formats binary64 and binary32.
    NaNs behave as on x86-64: an operation returns a NaN operand with its
    quiet bit set, an invalid operation returns the default NaN, and the
    conversions between double and single set the quiet bit and keep the
    sign and the leading bits of the payload. *)

Definition is_infinite (f : spec_float) : bool :=
  match f with S754_infinity _ => true | _ => false end.

(** An integer as an exact, not yet rounded, floating-point datum. *)
Definition exact_of_Z (z : Z) : spec_float :=
  match z with
  | Z0 => S754_zero false
  | Zpos p => S754_finite false p 0
  | Zneg p => S754_finite true p 0
  end.

Definition sign_bit (s : bool) : Z := if s then 2 ^ 63 else 0.

(** The number a double stands for: sign, exponent field of 11 bits and
    mantissa field of 52 bits.  Every NaN reads as [S754_nan]. *)
Definition float_view (x : pyfloat) : spec_float :=
  let s := Z.testbit x 63 in
  let ex := (x / 2 ^ 52) mod 2 ^ 11 in
  let mx := x mod 2 ^ 52 in
  if ex =? 0 then
    match mx with
    | Zpos p => S754_finite s p (-1074)
    | _ => S754_zero s
    end
  else if ex =? 2047 then
    if mx =? 0 then S754_infinity s else S754_nan
  else
    match mx + 2 ^ 52 with
    | Zpos p => S754_finite s p (ex - 1075)
    | _ => S754_nan
    end.

Definition is_nan (x : pyfloat) : bool :=
  match float_view x with S754_nan => true | _ => false end.

Definition is_zero (x : pyfloat) : bool :=
  match float_view x with S754_zero _ => true | _ => false end.

Definition quiet_nan (x : pyfloat) : pyfloat := Z.lor x (2 ^ 51).

(** The NaN an invalid operation makes. *)
Definition default_nan : pyfloat := 0xFFF8000000000000.

(** The double of a computed datum. *)
Definition float_of_spec (f : spec_float) : pyfloat :=
  match f with
  | S754_zero s => sign_bit s
  | S754_infinity s => sign_bit s + 2047 * 2 ^ 52
  | S754_nan => default_nan
  | S754_finite s m e =>
      if 2 ^ 52 <=? Zpos m
      then sign_bit s + (e + 1075) * 2 ^ 52 + (Zpos m - 2 ^ 52)
      else sign_bit s + Zpos m
  end.

Definition float_op (op : spec_float -> spec_float -> spec_float)
    (x y : pyfloat) : pyfloat :=
  if is_nan x then quiet_nan x
  else if is_nan y then quiet_nan y
  else float_of_spec (op (float_view x) (float_view y)).

Definition float_mul : pyfloat -> pyfloat -> pyfloat := float_op (SFmul 53 1024).
Definition float_div : pyfloat -> pyfloat -> pyfloat := float_op (SFdiv 53 1024).

(** [float(z)] for an [int]: correctly rounded, [OverflowError] beyond the
    range of a double. *)
Definition float_of_Z (z : Z) : result pyfloat :=
  let f := binary_normalize 53 1024 z 0 false in
  if is_infinite f then Raise OverflowError else Ok (float_of_spec f).

(** [a / b] on two [int]s: the correctly rounded quotient. *)
Definition Z_truediv (a b : Z) : result pyfloat :=
  if b =? 0 then Raise ZeroDivisionError
  else
    let f := SFdiv 53 1024 (exact_of_Z a) (exact_of_Z b) in
    if is_infinite f then Raise OverflowError else Ok (float_of_spec f).

(** [int(x)] for a [float]: truncation towards zero. *)
Definition Z_of_float (x : pyfloat) : result Z :=
  match float_view x with
  | S754_zero _ => Ok 0
  | S754_infinity _ => Raise OverflowError
  | S754_nan => Raise ValueError
  | S754_finite s m e =>
      let a := Z.shiftl (Zpos m) e in
      Ok (if s then - a else a)
  end.

(** [10.0 ** e] for an [int] exponent, taken as the correctly rounded
    power of ten.  From [10.0 ** 0] to [10.0 ** 22] the power is a double and
    this is it.  Beyond, the interpreter returns what the [pow] of its C
    library returns, which is within one unit in the last place of this
    value and not always equal to it (glibc differs at [10.0 ** 23]); no
    result below depends on the value there. *)
Definition float_pow10 (e : Z) : result pyfloat :=
  if 0 <=? e then float_of_Z (10 ^ e)
  else Ok (float_of_spec (SFdiv 53 1024 (exact_of_Z 1) (exact_of_Z (10 ^ (- e))))).

(** [n / 2 ** k] rounded to the nearest integer, ties to even. *)
Definition round_half_even (n k : Z) : Z :=
  let q := n / 2 ^ k in
  let r := n mod 2 ^ k in
  let h := 2 ^ (k - 1) in
  if r <? h then q else if h <? r then q + 1 else if Z.even q then q else q + 1.

(** The C cast of a double to a single, as its 32 bits: the significand
    of 53 bits is rounded to 24 bits, or to fewer below the normal range,
    and a carry of the rounding runs into the exponent.  A finite double
    that rounds to an infinity is refused with [OverflowError]
    ([PyFloat_Pack4]). *)
Definition narrow_to_single (x : pyfloat) : result Z :=
  let s := (x / 2 ^ 63) mod 2 in
  let ex := (x / 2 ^ 52) mod 2 ^ 11 in
  let mx := x mod 2 ^ 52 in
  if ex =? 2047 then
    if mx =? 0 then Ok (s * 2 ^ 31 + 0x7F800000)
    else Ok (s * 2 ^ 31 + 0x7FC00000 + (mx mod 2 ^ 51) / 2 ^ 29)
  else if ex =? 0 then Ok (s * 2 ^ 31)
  else
    let n := 2 ^ 52 + mx in
    let k := if 897 <=? ex then 29 else 29 + (897 - ex) in
    let m := round_half_even n k in
    let bits := if 897 <=? ex then (ex - 897) * 2 ^ 23 + m else m in
    if 0x7F800000 <=? bits then Raise OverflowError
    else Ok (s * 2 ^ 31 + bits).

(** The C cast of a single, given as its 32 bits, to a double. *)
Definition widen_single (y : Z) : pyfloat :=
  let s := (y / 2 ^ 31) mod 2 in
  let ey := (y / 2 ^ 23) mod 2 ^ 8 in
  let my := y mod 2 ^ 23 in
  if ey =? 255 then
    if my =? 0 then s * 2 ^ 63 + 0x7FF0000000000000
    else s * 2 ^ 63 + 0x7FF8000000000000 + (my mod 2 ^ 22) * 2 ^ 29
  else if ey =? 0 then
    if my =? 0 then s * 2 ^ 63
    else
      let d := Z.log2 my in
      s * 2 ^ 63 + (d + 874) * 2 ^ 52 + (my * 2 ^ (52 - d) - 2 ^ 52)
  else s * 2 ^ 63 + (ey + 896) * 2 ^ 52 + my * 2 ^ 29.

(** The 32 bits [y] encode a signalling NaN: exponent all ones, a mantissa
    that is not zero, and the quiet bit clear. *)
Definition signalling_nan32 (y : Z) : bool :=
  ((y / 2 ^ 23) mod 2 ^ 8 =? 255) && negb (y mod 2 ^ 23 =? 0) && (y mod 2 ^ 23 <? 2 ^ 22).

(** ** Built-in conversions and operators

    [int(x)] and [float(x)] parse their argument when it is a [str] or a
    [bytes] object.  The parsers of numeric text belong to the interpreter;
    they are an interface here, and every result below holds for each of its
    implementations. *)
Class NumericText := {
  parse_int : pyval -> result Z;
  parse_float : pyval -> result pyfloat
}.

Definition Z_of_bool (b : bool) : Z := if b then 1 else 0.

(** Truth value of an object, as tested by [if x:], [not x] and [bool(x)]. *)
Definition py_truth (v : pyval) : bool :=
  match v with
  | VBool b => b
  | VInt z => negb (z =? 0)
  | VFloat f => negb (is_zero f)
  | VStr s => negb (Nat.eqb (length s) 0)
  | VBytes b => negb (Nat.eqb (length b) 0)
  end.

Definition py_bool (v : pyval) : result pyval := Ok (VBool (py_truth v)).

Definition py_int `{NumericText} (v : pyval) : result pyval :=
  match v with
  | VBool b => Ok (VInt (Z_of_bool b))
  | VInt z => Ok (VInt z)
  | VFloat f => z ← Z_of_float f; Ok (VInt z)
  | VStr _ | VBytes _ => z ← parse_int v; Ok (VInt z)
  end.

Definition py_float `{NumericText} (v : pyval) : result pyval :=
  match v with
  | VBool b => f ← float_of_Z (Z_of_bool b); Ok (VFloat f)
  | VInt z => f ← float_of_Z z; Ok (VFloat f)
  | VFloat f => Ok (VFloat f)
  | VStr _ | VBytes _ => f ← parse_float v; Ok (VFloat f)
  end.

(** [bytes(x)]: a copy of a [bytes] object, [n] zero bytes for an integer
    [n], and a [TypeError] for a [str] (no encoding given) or a [float]. *)
Definition zero_bytes (n : Z) : result pyval :=
  if n <? 0 then Raise ValueError
  else if 2 ^ 63 <=? n then Raise OverflowError
  else Ok (VBytes (replicate (Z.to_nat n) x00)).

Definition py_bytes (v : pyval) : result pyval :=
  match v with
  | VBytes b => Ok (VBytes b)
  | VInt n => zero_bytes n
  | VBool b => zero_bytes (Z_of_bool b)
  | VStr _ | VFloat _ => Raise TypeError
  end.

(** The operand of an arithmetic operator, seen through the numeric tower. *)
Inductive number :=
  | NInt (z : Z)
  | NFloat (f : pyfloat).

Definition as_number (v : pyval) : option number :=
  match v with
  | VBool b => Some (NInt (Z_of_bool b))
  | VInt z => Some (NInt z)
  | VFloat f => Some (NFloat f)
  | VStr _ | VBytes _ => None
  end.

Definition number_to_float (n : number) : result pyfloat :=
  match n with
  | NInt z => float_of_Z z
  | NFloat f => Ok f
  end.

(** [a / b] *)
Definition py_truediv (a b : pyval) : result pyval :=
  match as_number a, as_number b with
  | Some (NInt x), Some (NInt y) => f ← Z_truediv x y; Ok (VFloat f)
  | Some x, Some y =>
      fx ← number_to_float x; fy ← number_to_float y;
      if is_zero fy then Raise ZeroDivisionError
      else Ok (VFloat (float_div fx fy))
  | _, _ => Raise TypeError
  end.

Definition repeat_seq {A} (n : Z) (l : list A) : list A :=
  mjoin (replicate (Z.to_nat n) l).

(** [a * b]: a product of numbers, or a sequence repeated an integer number
    of times. *)
Definition py_mul (a b : pyval) : result pyval :=
  match as_number a, as_number b with
  | Some (NInt x), Some (NInt y) => Ok (VInt (x * y))
  | Some x, Some y =>
      fx ← number_to_float x; fy ← number_to_float y;
      Ok (VFloat (float_mul fx fy))
  | None, Some (NInt n) =>
      match a with
      | VStr s => Ok (VStr (repeat_seq n s))
      | VBytes s => Ok (VBytes (repeat_seq n s))
      | _ => Raise TypeError
      end
  | Some (NInt n), None =>
      match b with
      | VStr s => Ok (VStr (repeat_seq n s))
      | VBytes s => Ok (VBytes (repeat_seq n s))
      | _ => Raise TypeError
      end
  | _, _ => Raise TypeError
  end.

(** ** The UTF-8 codec: [str.encode("utf8")] and [bytes.decode("utf8")]

    Both are strict: a surrogate code point has no encoding, and the decoder
    rejects stray or missing continuation bytes, overlong forms, surrogates
    and code points above U+10FFFF. *)

Definition is_surrogate (c : Z) : bool := (0xD800 <=? c) && (c <=? 0xDFFF).

Definition utf8_encode_cp (c : Z) : option pybytes :=
  if c <? 0 then None
  else if c <? 0x80 then Some [byte_of_Z c]
  else if c <? 0x800 then
    Some [byte_of_Z (0xC0 + c / 64); byte_of_Z (0x80 + c mod 64)]
  else if c <? 0x10000 then
    if is_surrogate c then None
    else Some [byte_of_Z (0xE0 + c / 4096); byte_of_Z (0x80 + (c / 64) mod 64);
               byte_of_Z (0x80 + c mod 64)]
  else if c <? 0x110000 then
    Some [byte_of_Z (0xF0 + c / 262144); byte_of_Z (0x80 + (c / 4096) mod 64);
          byte_of_Z (0x80 + (c / 64) mod 64); byte_of_Z (0x80 + c mod 64)]
  else None.

Fixpoint utf8_encode (s : pystr) : option pybytes :=
  match s with
  | [] => Some []
  | c :: r =>
      match utf8_encode_cp c, utf8_encode r with
      | Some b, Some br => Some (b ++ br)
      | _, _ => None
      end
  end.

(** The payload of a continuation byte [10xxxxxx]. *)
Definition continuation (b : byte) : option Z :=
  let z := Z_of_byte b in
  if (0x80 <=? z) && (z <? 0xC0) then Some (z - 0x80) else None.

Fixpoint utf8_decode (bs : pybytes) : option pystr :=
  match bs with
  | [] => Some []
  | b0 :: r0 =>
      let z0 := Z_of_byte b0 in
      if z0 <? 0x80 then cons z0 <$> utf8_decode r0
      else if z0 <? 0xC2 then None
      else if z0 <? 0xE0 then
        match r0 with
        | b1 :: r1 =>
            match continuation b1 with
            | Some c1 => cons ((z0 - 0xC0) * 64 + c1) <$> utf8_decode r1
            | None => None
            end
        | _ => None
        end
      else if z0 <? 0xF0 then
        match r0 with
        | b1 :: b2 :: r2 =>
            match continuation b1, continuation b2 with
            | Some c1, Some c2 =>
                let c := (z0 - 0xE0) * 4096 + c1 * 64 + c2 in
                if (c <? 0x800) || is_surrogate c then None
                else cons c <$> utf8_decode r2
            | _, _ => None
            end
        | _ => None
        end
      else if z0 <? 0xF5 then
        match r0 with
        | b1 :: b2 :: b3 :: r3 =>
            match continuation b1, continuation b2, continuation b3 with
            | Some c1, Some c2, Some c3 =>
                let c := (z0 - 0xF0) * 262144 + c1 * 4096 + c2 * 64 + c3 in
                if (c <? 0x10000) || (0x110000 <=? c) then None
                else cons c <$> utf8_decode r3
            | _, _, _ => None
            end
        | _ => None
        end
      else None
  end.

(** [str2bytes] also accepts [bytes]; any other object has no [encode]. *)
Definition str2bytes (s : pyval) : result pyval :=
  match s with
  | VBytes b => Ok (VBytes b)
  | VStr cs =>
      match utf8_encode cs with
      | Some b => Ok (VBytes b)
      | None => Raise UnicodeEncodeError
      end
  | _ => Raise AttributeError
  end.

Definition bytes2str (b : pyval) : result pyval :=
  match b with
  | VBytes bs =>
      match utf8_decode bs with
      | Some s => Ok (VStr s)
      | None => Raise UnicodeDecodeError
      end
  | _ => Raise AttributeError
  end.

(** ** The [struct] module

    Format strings start with ["<"]: little-endian, standard sizes, no
    padding.  The format characters are those of [marshall.py]: [?], [B],
    [H], [I], [Q], their signed counterparts, [f] and [d]. *)

Definition code_size (c : ascii) : option nat :=
  match c with
  | "?"%char | "B"%char | "b"%char => Some 1%nat
  | "H"%char | "h"%char => Some 2%nat
  | "I"%char | "i"%char | "f"%char => Some 4%nat
  | "Q"%char | "q"%char | "d"%char => Some 8%nat
  | _ => None
  end.

Definition code_signed (c : ascii) : bool :=
  match c with
  | "b"%char | "h"%char | "i"%char | "q"%char => true
  | _ => false
  end.

(** The integer an object stands for through [__index__]. *)
Definition py_index (v : pyval) : option Z :=
  match v with
  | VBool b => Some (Z_of_bool b)
  | VInt z => Some z
  | _ => None
  end.

Definition pack_int (signed : bool) (n : nat) (v : pyval) : result pybytes :=
  match py_index v with
  | None => Raise StructError
  | Some z =>
      let bits := 8 * Z.of_nat n in
      let lo := if signed then - 2 ^ (bits - 1) else 0 in
      let hi := if signed then 2 ^ (bits - 1) else 2 ^ bits in
      if (lo <=? z) && (z <? hi) then Ok (le_bytes n z) else Raise StructError
  end.

Definition unpack_int (signed : bool) (bs : pybytes) : Z :=
  let bits := 8 * Z.of_nat (length bs) in
  let u := le_int bs in
  if signed && (2 ^ (bits - 1) <=? u) then u - 2 ^ bits else u.

Definition pack_float (c : ascii) (v : pyval) : result pybytes :=
  match as_number v with
  | None => Raise StructError
  | Some n =>
      match number_to_float n with
      | Raise _ => Raise StructError
      | Ok f =>
          match c with
          | "f"%char => y ← narrow_to_single f; Ok (le_bytes 4 y)
          | _ => Ok (le_bytes 8 f)
          end
      end
  end.

Definition unpack_float (c : ascii) (bs : pybytes) : pyfloat :=
  match c with
  | "f"%char => widen_single (le_int bs)
  | _ => le_int bs
  end.

Definition pack_field (c : ascii) (v : pyval) : result pybytes :=
  match c with
  | "?"%char => Ok [byte_of_Z (Z_of_bool (py_truth v))]
  | "f"%char | "d"%char => pack_float c v
  | _ =>
      match code_size c with
      | Some n => pack_int (code_signed c) n v
      | None => Raise StructError
      end
  end.

(** [bs] holds exactly the bytes of the field. *)
Definition unpack_field (c : ascii) (bs : pybytes) : pyval :=
  match c with
  | "?"%char => VBool (negb (le_int bs =? 0))
  | "f"%char | "d"%char => VFloat (unpack_float c bs)
  | _ => VInt (unpack_int (code_signed c) bs)
  end.

Fixpoint parse_codes (s : string) : option (list (ascii * nat)) :=
  match s with
  | EmptyString => Some []
  | String c r =>
      match code_size c, parse_codes r with
      | Some n, Some l => Some ((c, n) :: l)
      | _, _ => None
      end
  end.

Definition parse_format (fmt : string) : result (list (ascii * nat)) :=
  match fmt with
  | String "<"%char r =>
      match parse_codes r with
      | Some l => Ok l
      | None => Raise StructError
      end
  | _ => Raise StructError
  end.

Definition calcsize (codes : list (ascii * nat)) : nat :=
  foldr (fun cn acc => (cn.2 + acc)%nat) 0%nat codes.

Fixpoint pack_fields (codes : list (ascii * nat)) (vs : list pyval) : result pybytes :=
  match codes, vs with
  | [], [] => Ok []
  | (c, _) :: cs, v :: vr =>
      b ← pack_field c v; r ← pack_fields cs vr; Ok (b ++ r)
  | _, _ => Raise StructError
  end.

Fixpoint unpack_fields (codes : list (ascii * nat)) (bs : pybytes) : list pyval :=
  match codes with
  | [] => []
  | (c, n) :: cs => unpack_field c (take n bs) :: unpack_fields cs (drop n bs)
  end.

(** [struct.pack(fmt, *vs)] *)
Definition struct_pack (fmt : string) (vs : list pyval) : result pybytes :=
  codes ← parse_format fmt; pack_fields codes vs.

(** [struct.unpack(fmt, bs)]: the buffer must have the size of the format. *)
Definition struct_unpack (fmt : string) (bs : pybytes) : result (list pyval) :=
  codes ← parse_format fmt;
  if Nat.eqb (length bs) (calcsize codes) then Ok (unpack_fields codes bs)
  else Raise StructError.

(** ** marshall.py *)

(** [len(x)] *)
Definition len {A} (l : list A) : Z := Z.of_nat (length l).

(** [not x] for an attribute holding [None] or an [int]. *)
Definition py_not (x : option Z) : bool :=
  match x with
  | None => true
  | Some n => n =? 0
  end.

(** An entry of the registry is the tuple
    [(frompython, topython, length, format)]. *)
Abbreviation table_entry :=
  ((pyval -> result pyval) * (pyval -> result pyval) * option Z * option string)%type.

Definition Table_2904_items `{NumericText} : list (Z * table_entry) :=
  [ (1, (py_bool, py_bool, Some 1, Some "<?"%string));
    (2, (py_int, py_int, Some 1, Some "<B"%string));
    (3, (py_int, py_int, Some 1, Some "<B"%string));
    (4, (py_int, py_int, Some 1, Some "<B"%string));
    (5, (py_int, py_int, Some 2, Some "<H"%string));
    (6, (py_int, py_int, Some 2, Some "<H"%string));
    (8, (py_int, py_int, Some 4, Some "<I"%string));
    (10, (py_int, py_int, Some 8, Some "<Q"%string));
    (12, (py_int, py_int, Some 1, Some "<b"%string));
    (13, (py_int, py_int, Some 2, Some "<h"%string));
    (14, (py_int, py_int, Some 2, Some "<h"%string));
    (16, (py_int, py_int, Some 4, Some "<i"%string));
    (18, (py_int, py_int, Some 8, Some "<Q"%string));
    (20, (py_float, py_float, Some 4, Some "<f"%string));
    (21, (py_float, py_float, Some 8, Some "<d"%string));
    (25, (str2bytes, bytes2str, None, None));
    (27, (py_bytes, py_bytes, None, None)) ].

Definition Table_2904_bytes_format `{NumericText} : gmap Z table_entry :=
  list_to_map Table_2904_items.

Module BleakGATTPackMarshaller.

(** The attributes of an instance. *)
Record t := {
  frompython : pyval -> result pyval;
  topython : pyval -> result pyval;
  length : option Z;
  format : option string;
  exponent : Z;
  unit : Z
}.

(** [__init__]: the branch taken for a non-zero exponent evaluates
    [sys.stderr], and the module never imports [sys]. *)
Definition init (format : table_entry) (exponent unit : Z) : result t :=
  let '(frompython, topython, length, format) := format in
  if negb (exponent =? 0) then Raise NameError
  else Ok {| frompython := frompython; topython := topython;
             length := length; format := format;
             exponent := exponent; unit := unit |}.

Definition pack (format : option string) (data : pyval) : result pybytes :=
  match format with
  | Some fmt => struct_pack fmt [data]
  | None => Raise TypeError
  end.

(** [(data,) = struct.unpack(format, data_bytes)] *)
Definition unpack (format : option string) (data_bytes : pybytes) : result pyval :=
  match format with
  | Some fmt =>
      fields ← struct_unpack fmt data_bytes;
      match fields with
      | [data] => Ok data
      | _ => Raise ValueError
      end
  | None => Raise TypeError
  end.

Definition marshall (self : t) (data : pyval) : result pyval :=
  if py_not (length self) then frompython self data
  else
    data ← (if 0 <? exponent self
            then py_truediv data (VInt (10 ^ exponent self))
            else if exponent self <? 0
            then py_mul data (VInt (10 ^ (- exponent self)))
            else Ok data);
    data ← frompython self data;
    data_bytes ← pack (format self) data;
    if decide (Some (len data_bytes) = length self)
    then Ok (VBytes data_bytes)
    else Raise AssertionError.

Definition unmarshall (self : t) (data_bytes : pybytes) : result pyval :=
  if py_not (length self) then topython self (VBytes data_bytes)
  else if decide (Some (len data_bytes) = length self) then
    data ← unpack (format self) data_bytes;
    data ← topython self data;
    if negb (exponent self =? 0) then
      scale ← float_pow10 (exponent self);
      py_mul data (VFloat scale)
    else Ok data
  else Raise AssertionError.

End BleakGATTPackMarshaller.

(** A marshaller object: an instance of the base class, an instance of the
    pack marshaller, or an object made by a factory of the application. *)
Inductive marshaller :=
  | Passthrough
  | Pack (m : BleakGATTPackMarshaller.t)
  | Foreign (marshall : pyval -> result pyval) (unmarshall : pybytes -> result pyval).

(** ** Effects of the resolver

    [get_marshaller] reads a descriptor through the client and emits
    warnings.  A computation yields the events in the order they happen and
    either a value or the exception that ended it. *)
Inductive event :=
  | ReadDescriptor (handle : Z)
  | Warning (message : pystr).

Record io (A : Type) := IO { trace : list event; outcome : result A }.
Arguments IO {A} trace outcome.
Arguments trace {A} _.
Arguments outcome {A} _.

#[export] Instance io_ret : MRet io := fun _ a => IO [] (Ok a).
#[export] Instance io_bind : MBind io := fun _ _ k m =>
  match outcome m with
  | Ok a => IO (trace m ++ trace (k a)) (outcome (k a))
  | Raise e => IO (trace m) (Raise e)
  end.

Definition lift {A} (r : result A) : io A := IO [] r.

(** [warnings.warn(message)] *)
Definition warn (message : pystr) : io () := IO [Warning message] (Ok ()).

(** The client: its address and what a read of each descriptor handle
    answers (the bytes, or the error of the transport). *)
Record BleakClient := {
  address : pystr;
  descriptor_value : Z -> result pybytes
}.

(** [await client.read_gatt_descriptor(handle)] *)
Definition read_gatt_descriptor (client : BleakClient) (handle : Z) : io pybytes :=
  IO [ReadDescriptor handle] (descriptor_value client handle).

Record BleakGATTDescriptor := { handle : Z }.

(** The code points of a string literal. *)
Definition str_lit (s : string) : pystr :=
  map (fun c => Z.of_N (N_of_ascii c)) (list_ascii_of_string s).

(** The text of the warning of [get_marshaller]. *)
Definition no_marshaller_found (client : BleakClient) (uuid : pystr) : pystr :=
  str_lit "BleakGATTMarshaller: no marshaller found for client "
  ++ address client ++ str_lit " characteristic " ++ uuid.

Module BleakGATTMarshaller.

(** [Table_uuid_to_marshaller]: the value under a key is a factory, and
    calling it yields a marshaller or raises. *)
Abbreviation overrides := (gmap pystr (() -> result marshaller)).

(** [get_marshaller] ends either in a [return] or by falling through to
    the warning; [found] is the value of the [return] reached, if any. *)
Definition get_marshaller `{NumericText} (Table_uuid_to_marshaller : overrides)
    (client : BleakClient) (uuid : pystr)
    (descr_2904 : option BleakGATTDescriptor) : io marshaller :=
  match (if py_truth (VStr uuid) then Table_uuid_to_marshaller !! uuid else None) with
  | Some factory => lift (factory ())
  | None =>
      found ←
        match descr_2904 with
        | Some d =>
            descr_2904_data ← read_gatt_descriptor client (handle d);
            fields ← lift (struct_unpack "<BbHBH" descr_2904_data);
            match fields with
            | [VInt format; VInt exponent; VInt unit; VInt namespace; VInt description] =>
                match Table_2904_bytes_format !! format with
                | Some entry =>
                    m ← lift (BleakGATTPackMarshaller.init entry exponent unit);
                    mret (Some (Pack m))
                | None => mret None
                end
            | _ => lift (Raise ValueError)
            end
        | None => mret None
        end;
      match found with
      | Some m => mret m
      | None =>
          _ ← warn (no_marshaller_found client uuid);
          mret Passthrough
      end
  end.

Definition marshall (data : pyval) : result pyval := py_bytes data.

Definition unmarshall (data_bytes : pybytes) : result pyval := Ok (VBytes data_bytes).

End BleakGATTMarshaller.

(** [m.marshall(data)] and [m.unmarshall(data_bytes)], dispatched on the
    class of [m]. *)
Definition marshall (m : marshaller) (data : pyval) : result pyval :=
  match m with
  | Passthrough => BleakGATTMarshaller.marshall data
  | Pack p => BleakGATTPackMarshaller.marshall p data
  | Foreign f _ => f data
  end.

Definition unmarshall (m : marshaller) (data_bytes : pybytes) : result pyval :=
  match m with
  | Passthrough => BleakGATTMarshaller.unmarshall data_bytes
  | Pack p => BleakGATTPackMarshaller.unmarshall p data_bytes
  | Foreign _ g => g data_bytes
  end.

(** An interpreter whose [int] and [float] reject every text, used to run
    examples that parse none. *)
Definition rejecting_text : NumericText :=
  {| parse_int := fun _ => Raise ValueError;
     parse_float := fun _ => Raise ValueError |}.

(** The format strings of one integer field. *)
Definition integer_codes : list ascii :=
  ["B"; "H"; "I"; "Q"; "b"; "h"; "i"; "q"]%char.

Definition single_format (c : ascii) : string := String "<"%char (String c EmptyString).

(** The registry entry of an integer kind packed as the single field [c]
    of [n] bytes. *)
Definition integer_entry `{NumericText} (c : ascii) (n : nat) : table_entry :=
  (py_int, py_int, Some (Z.of_nat n), Some (single_format c)).

(** The override table holds nothing for [uuid], or [uuid] is empty and
    the table is not consulted. *)
Definition no_override (table : BleakGATTMarshaller.overrides) (uuid : pystr) : Prop :=
  uuid = [] \/ table !! uuid = None.

(** A code point that is not a surrogate: a Unicode scalar value. *)
Definition unicode_scalar (c : Z) : Prop :=
  0 <= c < 0x110000 /\ is_surrogate c = false.

(** A client for the examples: the descriptor of handle 5 holds a record
    of the unsupported format 7, the one of handle 6 a record of format 8
    with exponent 2, and no other descriptor can be read. *)
Definition example_client : BleakClient :=
  {| address := str_lit "AA:BB";
     descriptor_value := fun h =>
       if h =? 5 then Ok [x07; x00; x00; x27; x01; x00; x00]
       else if h =? 6 then Ok [x08; x02; x00; x27; x01; x00; x00]
       else Raise BleakError |}.

(** The values a field of [n] bytes can hold. *)
Definition layout_range (signed : bool) (n : nat) (z : Z) : Prop :=
  if signed then - 2 ^ (8 * Z.of_nat n - 1) <= z < 2 ^ (8 * Z.of_nat n - 1)
  else 0 <= z < 2 ^ (8 * Z.of_nat n).

(** ** client.py

    [BleakTypedClient] extends the client of the transport.  What the
    transport answers is part of the client: the characteristics that the
    discovery of services finds, the value each characteristic holds and
    the outcome of each write.  A characteristic is given either as the
    object or as an identifier (a handle or a UUID) to look up. *)

Module BleakGATTCharacteristic.

Record t := {
  uuid : pystr;
  get_descriptor : pystr -> option BleakGATTDescriptor
}.

End BleakGATTCharacteristic.

Inductive char_specifier :=
  | Characteristic (char : BleakGATTCharacteristic.t)
  | Identifier (key : pyval).

(** What a typed operation does on the transport, in order; the events of
    the resolver are among them. *)
Inductive gatt_event :=
  | GetServices
  | Resolve (e : event)
  | ReadChar (spec : char_specifier)
  | WriteChar (spec : char_specifier) (data : pyval) (response : bool).

Record gatt (A : Type) := GATT { gatt_trace : list gatt_event; gatt_outcome : result A }.
Arguments GATT {A} gatt_trace gatt_outcome.
Arguments gatt_trace {A} _.
Arguments gatt_outcome {A} _.

#[export] Instance gatt_ret : MRet gatt := fun _ a => GATT [] (Ok a).
#[export] Instance gatt_bind : MBind gatt := fun _ _ k m =>
  match gatt_outcome m with
  | Ok a => GATT (gatt_trace m ++ gatt_trace (k a)) (gatt_outcome (k a))
  | Raise e => GATT (gatt_trace m) (Raise e)
  end.

Definition gatt_lift {A} (r : result A) : gatt A := GATT [] r.

(** A computation of the resolver, run as part of a typed operation. *)
Definition resolve {A} (m : io A) : gatt A := GATT (Resolve <$> trace m) (outcome m).

(** The UUID of the Characteristic Presentation Format descriptor. *)
Definition descr_2904_uuid : pystr := str_lit "00002904-0000-1000-8000-00805f9b34fb".

Module BleakTypedClient.

Record t := {
  base : BleakClient;
  services : result (pyval -> option BleakGATTCharacteristic.t);
  char_value : char_specifier -> result pybytes;
  write_result : char_specifier -> pyval -> bool -> result ()
}.

(** [await self.get_services()]; the collection is its [get_characteristic]. *)
Definition get_services (self : t) : gatt (pyval -> option BleakGATTCharacteristic.t) :=
  GATT [GetServices] (services self).

(** [await self.read_gatt_char(char_specifier)] *)
Definition read_gatt_char (self : t) (spec : char_specifier) : gatt pybytes :=
  GATT [ReadChar spec] (char_value self spec).

(** [await self.write_gatt_char(char_specifier, data_bytes, response)] *)
Definition write_gatt_char (self : t) (spec : char_specifier) (data_bytes : pyval)
    (response : bool) : gatt () :=
  GATT [WriteChar spec data_bytes response] (write_result self spec data_bytes response).

Definition get_marshaller `{NumericText}
    (Table_uuid_to_marshaller : BleakGATTMarshaller.overrides)
    (self : t) (spec : char_specifier) : gatt marshaller :=
  char ← match spec with
         | Characteristic char => mret char
         | Identifier key =>
             coll ← get_services self;
             match coll key with
             | Some char => mret char
             | None => gatt_lift (Raise BleakError)
             end
         end;
  let descr_2904 := BleakGATTCharacteristic.get_descriptor char descr_2904_uuid in
  resolve (BleakGATTMarshaller.get_marshaller Table_uuid_to_marshaller (base self)
             (BleakGATTCharacteristic.uuid char) descr_2904).

Definition read_gatt_char_typed `{NumericText}
    (Table_uuid_to_marshaller : BleakGATTMarshaller.overrides)
    (self : t) (spec : char_specifier) : gatt pyval :=
  marshaller ← get_marshaller Table_uuid_to_marshaller self spec;
  data_bytes ← read_gatt_char self spec;
  gatt_lift (unmarshall marshaller data_bytes).

Definition write_gatt_char_typed `{NumericText}
    (Table_uuid_to_marshaller : BleakGATTMarshaller.overrides)
    (self : t) (spec : char_specifier) (data : pyval) (response : bool) : gatt () :=
  marshaller ← get_marshaller Table_uuid_to_marshaller self spec;
  data_bytes ← gatt_lift (marshall marshaller data);
  write_gatt_char self spec data_bytes response.

End BleakTypedClient.

(** The events of an operation that read or write a characteristic. *)
Definition touches_characteristic (e : gatt_event) : bool :=
  match e with
  | ReadChar _ | WriteChar _ _ _ => true
  | _ => false
  end.

(** A characteristic without descriptors, one whose presentation-format
    descriptor has handle 3, and a typed client for the examples: its
    descriptors all hold the record of format 6 with exponent 0, its
    services know the second characteristic under its UUID, every
    characteristic holds the bytes 2C 01 and every write succeeds. *)
Definition example_plain_char : BleakGATTCharacteristic.t :=
  {| BleakGATTCharacteristic.uuid := str_lit "2a19";
     BleakGATTCharacteristic.get_descriptor := fun _ => None |}.

Definition example_char : BleakGATTCharacteristic.t :=
  {| BleakGATTCharacteristic.uuid := str_lit "2a19";
     BleakGATTCharacteristic.get_descriptor := fun u =>
       if decide (u = descr_2904_uuid) then Some {| handle := 3 |} else None |}.

Definition example_typed_client : BleakTypedClient.t :=
  {| BleakTypedClient.base :=
       {| address := str_lit "AA:BB";
          descriptor_value := fun _ => Ok [x06; x00; x00; x27; x01; x00; x00] |};
     BleakTypedClient.services := Ok (fun key =>
       match key with
       | VStr k => if decide (k = str_lit "2a19") then Some example_char else None
       | _ => None
       end);
     BleakTypedClient.char_value := fun _ => Ok [x2c; x01];
     BleakTypedClient.write_result := fun _ _ _ => Ok () |}.

(** ** Tactics *)

(** Membership in a list of constants, by evaluation. *)
Ltac decide_list := apply (bool_decide_unpack _); vm_compute; exact I.

(** An item of the registry, found by walking down the list. *)
Ltac find_item :=
  unfold Table_2904_items;
  solve [repeat first [apply list_elem_of_here | apply list_elem_of_further]].

(** Decides the comparisons of a test from the bounds at hand. *)
Ltac range_cases :=
  repeat match goal with
         | |- context [?a <? ?b] => destruct (Z.ltb_spec a b); try lia
         | |- context [?a <=? ?b] => destruct (Z.leb_spec a b); try lia
         end.

(** The powers of two of the floating-point layouts, as numerals. *)
Ltac pow_numerals :=
  change (2 ^ 63) with 9223372036854775808 in *;
  change (2 ^ 52) with 4503599627370496 in *;
  change (2 ^ 51) with 2251799813685248 in *;
  change (2 ^ 32) with 4294967296 in *;
  change (2 ^ 31) with 2147483648 in *;
  change (2 ^ 29) with 536870912 in *;
  change (2 ^ 23) with 8388608 in *;
  change (2 ^ 22) with 4194304 in *;
  change (2 ^ 11) with 2048 in *;
  change (2 ^ 8) with 256 in *.

(** * Properties *)

(** ** Little-endian byte strings *)

Lemma Z_of_byte_range b : 0 <= Z_of_byte b < 256.
Proof.
  unfold Z_of_byte. pose proof (Byte.to_N_bounded b) as H.
  lia.
Qed.

Lemma byte_of_Z_of_byte b : byte_of_Z (Z_of_byte b) = b.
Proof.
  unfold byte_of_Z. pose proof (Z_of_byte_range b) as H.
  rewrite Z.mod_small by lia. unfold Z_of_byte.
  rewrite N2Z.id, Byte.of_to_N. reflexivity.
Qed.

Lemma Z_of_byte_of_Z z : Z_of_byte (byte_of_Z z) = z mod 256.
Proof.
  unfold byte_of_Z, Z_of_byte.
  pose proof (Z.mod_pos_bound z 256 ltac:(lia)) as H.
  destruct (Byte.of_N (Z.to_N (z mod 256))) as [b|] eqn:E.
  - apply Byte.to_of_N in E. rewrite E. lia.
  - apply Byte.of_N_None_iff in E. lia.
Qed.

Lemma le_bytes_length n z : length (le_bytes n z) = n.
Proof. revert z. induction n as [|n IH]; intros z; simpl; [done|]. by rewrite IH. Qed.

Lemma le_int_range bs : 0 <= le_int bs < 256 ^ Z.of_nat (length bs).
Proof.
  induction bs as [|b r IH]; [simpl; lia|].
  cbn [le_int length]. rewrite Nat2Z.inj_succ, Z.pow_succ_r by lia.
  pose proof (Z_of_byte_range b). lia.
Qed.

Lemma le_int_le_bytes n z : le_int (le_bytes n z) = z mod 256 ^ Z.of_nat n.
Proof.
  revert z. induction n as [|n IH]; intros z.
  - simpl. by rewrite Z.mod_1_r.
  - cbn [le_bytes le_int]. rewrite IH, Z_of_byte_of_Z.
    rewrite Nat2Z.inj_succ, Z.pow_succ_r by lia.
    rewrite Z.rem_mul_r by lia. lia.
Qed.

Lemma le_bytes_le_int bs : le_bytes (length bs) (le_int bs) = bs.
Proof.
  induction bs as [|b r IH]; [done|].
  cbn [length le_bytes le_int].
  pose proof (Z_of_byte_range b) as Hb.
  f_equal.
  - rewrite <- (byte_of_Z_of_byte b) at 2. unfold byte_of_Z.
    replace ((Z_of_byte b + 256 * le_int r) mod 256) with (Z_of_byte b mod 256); [done|].
    Z.div_mod_to_equations. lia.
  - replace ((Z_of_byte b + 256 * le_int r) / 256) with (le_int r); [done|].
    Z.div_mod_to_equations. lia.
Qed.

Lemma byte_of_Z_add z k : byte_of_Z (z + k * 256) = byte_of_Z z.
Proof. unfold byte_of_Z. by rewrite Z.mod_add by lia. Qed.

Lemma le_bytes_add_pow n z k : le_bytes n (z + k * 256 ^ Z.of_nat n) = le_bytes n z.
Proof.
  revert z k. induction n as [|n IH]; intros z k; [done|].
  cbn [le_bytes]. rewrite Nat2Z.inj_succ, Z.pow_succ_r by lia.
  replace (z + k * (256 * 256 ^ Z.of_nat n)) with (z + k * 256 ^ Z.of_nat n * 256) by lia.
  rewrite byte_of_Z_add, Z.div_add by lia. by rewrite IH.
Qed.

Lemma pow_256_2 n : 256 ^ Z.of_nat n = 2 ^ (8 * Z.of_nat n).
Proof. rewrite Z.pow_mul_r by lia. done. Qed.

(** ** Integers through [struct] *)

Lemma half_range n : (0 < n)%nat -> 2 ^ (8 * Z.of_nat n) = 2 * 2 ^ (8 * Z.of_nat n - 1).
Proof.
  intros Hn. rewrite <- Z.pow_succ_r by lia. f_equal. lia.
Qed.

Lemma pack_unpack_int signed bs :
  (0 < length bs)%nat ->
  pack_int signed (length bs) (VInt (unpack_int signed bs)) = Ok bs.
Proof.
  intros Hn. unfold pack_int, unpack_int. cbn [py_index].
  pose proof (le_int_range bs) as Hr. rewrite pow_256_2 in Hr.
  pose proof (half_range _ Hn) as Hh.
  assert (0 < 2 ^ (8 * Z.of_nat (length bs) - 1)) by (apply Z.pow_pos_nonneg; lia).
  destruct signed; cbn [andb].
  - destruct (Z.leb_spec (2 ^ (8 * Z.of_nat (length bs) - 1)) (le_int bs)).
    + rewrite (proj2 (andb_true_iff _ _)) by (split; [apply Z.leb_le | apply Z.ltb_lt]; lia).
      replace (le_int bs - 2 ^ (8 * Z.of_nat (length bs)))
        with (le_int bs + (-1) * 256 ^ Z.of_nat (length bs)) by (rewrite pow_256_2; lia).
      by rewrite le_bytes_add_pow, le_bytes_le_int.
    + rewrite (proj2 (andb_true_iff _ _)) by (split; [apply Z.leb_le | apply Z.ltb_lt]; lia).
      by rewrite le_bytes_le_int.
  - rewrite (proj2 (andb_true_iff _ _)) by (split; [apply Z.leb_le | apply Z.ltb_lt]; lia).
    by rewrite le_bytes_le_int.
Qed.

Lemma unpack_pack_int signed n v bs :
  (0 < n)%nat ->
  pack_int signed n v = Ok bs ->
  py_index v = Some (unpack_int signed bs).
Proof.
  intros Hn. unfold pack_int, unpack_int.
  destruct (py_index v) as [z|]; [|done].
  pose proof (half_range _ Hn) as Hh.
  assert (0 < 2 ^ (8 * Z.of_nat n - 1)) by (apply Z.pow_pos_nonneg; lia).
  destruct (_ && _) eqn:E; [|done]. intros [= <-].
  apply andb_true_iff in E as [Hlo%Z.leb_le Hhi%Z.ltb_lt].
  rewrite le_bytes_length, le_int_le_bytes, pow_256_2. f_equal.
  destruct signed; cbn [andb].
  - destruct (Z.leb_spec (2 ^ (8 * Z.of_nat n - 1)) (z mod 2 ^ (8 * Z.of_nat n))) as [Hc|Hc].
    + destruct (Z.lt_ge_cases z 0) as [Hz|Hz].
      * rewrite <- (Z.mod_add z 1) by lia. rewrite Z.mod_small; lia.
      * rewrite Z.mod_small in Hc by lia. lia.
    + destruct (Z.lt_ge_cases z 0) as [Hz|Hz].
      * rewrite <- (Z.mod_add z 1) in Hc by lia. rewrite Z.mod_small in Hc; lia.
      * rewrite Z.mod_small; lia.
  - rewrite Z.mod_small; lia.
Qed.

Lemma struct_unpack_single c n bs :
  code_size c = Some n -> length bs = n ->
  struct_unpack (single_format c) bs = Ok [unpack_field c bs].
Proof.
  intros Hc Hn. unfold struct_unpack, single_format, parse_format.
  cbn [parse_codes]. rewrite Hc. cbn.
  rewrite Hn, Nat.add_0_r, Nat.eqb_refl.
  by rewrite <- Hn, firstn_all.
Qed.

Lemma struct_unpack_length fmt bs fields :
  struct_unpack fmt bs = Ok fields ->
  exists codes, parse_format fmt = Ok codes /\ length bs = calcsize codes.
Proof.
  unfold struct_unpack. destruct (parse_format fmt) as [codes|]; [|done]. cbn.
  destruct (Nat.eqb_spec (length bs) (calcsize codes)); [|done]. eauto.
Qed.

Lemma struct_pack_single c n v :
  code_size c = Some n ->
  struct_pack (single_format c) [v] = (b ← pack_field c v; Ok (b ++ [])).
Proof.
  intros Hc. unfold struct_pack, single_format, parse_format.
  cbn [parse_codes]. rewrite Hc. cbn. by destruct (pack_field c v).
Qed.

Lemma pack_field_integer c n v :
  c ∈ integer_codes -> code_size c = Some n ->
  pack_field c v = pack_int (code_signed c) n v.
Proof.
  unfold integer_codes. intros Hc Hn.
  repeat (apply elem_of_cons in Hc as [->|Hc]; [cbn in Hn |- *; by injection Hn as <-|]).
  by apply elem_of_nil in Hc.
Qed.

Lemma unpack_field_integer c bs :
  c ∈ integer_codes -> unpack_field c bs = VInt (unpack_int (code_signed c) bs).
Proof.
  unfold integer_codes. intros Hc.
  repeat (apply elem_of_cons in Hc as [->|Hc]; [done|]).
  by apply elem_of_nil in Hc.
Qed.

Lemma code_size_integer c n :
  c ∈ integer_codes -> code_size c = Some n -> (0 < n)%nat.
Proof.
  unfold integer_codes. intros Hc Hn.
  repeat (apply elem_of_cons in Hc as [->|Hc]; [cbn in Hn; injection Hn as <-; lia|]).
  by apply elem_of_nil in Hc.
Qed.

(** ** Floats through [struct]

    A double is its sign, its exponent field and its mantissa field; so is a
    single.  Widening a single and narrowing the double again gives the
    single back, unless the single is a signalling NaN. *)

Lemma double_fields s e m :
  0 <= s < 2 -> 0 <= e < 2 ^ 11 -> 0 <= m < 2 ^ 52 ->
  ((s * 2 ^ 63 + e * 2 ^ 52 + m) / 2 ^ 63) mod 2 = s /\
  ((s * 2 ^ 63 + e * 2 ^ 52 + m) / 2 ^ 52) mod 2 ^ 11 = e /\
  (s * 2 ^ 63 + e * 2 ^ 52 + m) mod 2 ^ 52 = m.
Proof.
  intros Hs He Hm. pow_numerals. repeat split.
  - Z.div_mod_to_equations. lia.
  - Z.div_mod_to_equations. lia.
  - Z.div_mod_to_equations. lia.
Qed.

Lemma single_fields y :
  0 <= y < 2 ^ 32 ->
  0 <= (y / 2 ^ 31) mod 2 < 2 /\ 0 <= (y / 2 ^ 23) mod 2 ^ 8 < 2 ^ 8 /\
  0 <= y mod 2 ^ 23 < 2 ^ 23 /\
  y = (y / 2 ^ 31) mod 2 * 2 ^ 31 + (y / 2 ^ 23) mod 2 ^ 8 * 2 ^ 23 + y mod 2 ^ 23.
Proof.
  intros Hy. pow_numerals. Z.div_mod_to_equations. lia.
Qed.

Lemma narrow_fields s e m :
  0 <= s < 2 -> 0 <= e < 2 ^ 11 -> 0 <= m < 2 ^ 52 ->
  narrow_to_single (s * 2 ^ 63 + e * 2 ^ 52 + m) =
  if e =? 2047 then
    if m =? 0 then Ok (s * 2 ^ 31 + 0x7F800000)
    else Ok (s * 2 ^ 31 + 0x7FC00000 + (m mod 2 ^ 51) / 2 ^ 29)
  else if e =? 0 then Ok (s * 2 ^ 31)
  else
    let n := 2 ^ 52 + m in
    let k := if 897 <=? e then 29 else 29 + (897 - e) in
    let r := round_half_even n k in
    let bits := if 897 <=? e then (e - 897) * 2 ^ 23 + r else r in
    if 0x7F800000 <=? bits then Raise OverflowError
    else Ok (s * 2 ^ 31 + bits).
Proof.
  intros Hs He Hm. unfold narrow_to_single.
  destruct (double_fields s e m Hs He Hm) as (-> & -> & ->). reflexivity.
Qed.

Lemma round_half_even_exact q k :
  0 < k -> round_half_even (q * 2 ^ k) k = q.
Proof.
  intros Hk. unfold round_half_even.
  assert (0 < 2 ^ k) by (apply Z.pow_pos_nonneg; lia).
  assert (0 < 2 ^ (k - 1)) by (apply Z.pow_pos_nonneg; lia).
  rewrite Z.div_mul, Z.mod_mul by lia.
  destruct (Z.ltb_spec 0 (2 ^ (k - 1))); [done|lia].
Qed.

Lemma narrow_widen y :
  0 <= y < 2 ^ 32 -> signalling_nan32 y = false ->
  narrow_to_single (widen_single y) = Ok y.
Proof.
  intros Hy Hq. unfold widen_single. unfold signalling_nan32 in Hq.
  destruct (single_fields y Hy) as (Hs & He & Hm & Heq).
  revert Hq Hs He Hm Heq.
  generalize ((y / 2 ^ 31) mod 2), ((y / 2 ^ 23) mod 2 ^ 8), (y mod 2 ^ 23).
  intros s e m Hq Hs He Hm ->.
  destruct (Z.eqb_spec e 255) as [->|He255].
  - destruct (Z.eqb_spec m 0) as [->|Hm0].
    + replace (s * 2 ^ 63 + 0x7FF0000000000000) with (s * 2 ^ 63 + 2047 * 2 ^ 52 + 0) by (pow_numerals; lia).
      rewrite narrow_fields by (pow_numerals; lia). cbn [Z.eqb Pos.eqb].
      f_equal. pow_numerals. lia.
    + cbn [andb negb] in Hq. apply Z.ltb_ge in Hq.
      replace (s * 2 ^ 63 + 0x7FF8000000000000 + m mod 2 ^ 22 * 2 ^ 29)
        with (s * 2 ^ 63 + 2047 * 2 ^ 52 + (2 ^ 51 + (m - 2 ^ 22) * 2 ^ 29))
        by (pow_numerals; Z.div_mod_to_equations; lia).
      rewrite narrow_fields by (pow_numerals; lia). cbn [Z.eqb Pos.eqb].
      destruct (Z.eqb_spec (2 ^ 51 + (m - 2 ^ 22) * 2 ^ 29) 0); [pow_numerals; lia|].
      f_equal. pow_numerals. Z.div_mod_to_equations. lia.
  - clear Hq. destruct (Z.eqb_spec e 0) as [->|He0].
    + destruct (Z.eqb_spec m 0) as [->|Hm0].
      * replace (s * 2 ^ 63) with (s * 2 ^ 63 + 0 * 2 ^ 52 + 0) by lia.
        rewrite narrow_fields by (pow_numerals; lia). cbn [Z.eqb].
        f_equal. lia.
      * assert (0 < m) as Hpos by lia.
        pose proof (Z.log2_spec m Hpos) as Hd.
        pose proof (Z.log2_nonneg m) as Hd0.
        set (d := Z.log2 m) in *.
        assert (d < 23) as Hd23.
        { apply Z.log2_lt_pow2; lia. }
        assert (2 ^ 52 = 2 ^ d * 2 ^ (52 - d)) as Hsplit.
        { rewrite <- Z.pow_add_r by lia. f_equal. lia. }
        assert (0 < 2 ^ d) by (apply Z.pow_pos_nonneg; lia).
        assert (0 < 2 ^ (52 - d)) by (apply Z.pow_pos_nonneg; lia).
        rewrite Z.pow_succ_r in Hd by lia.
        assert (2 ^ 52 <= m * 2 ^ (52 - d) < 2 * 2 ^ 52) as Hrange by nia.
        rewrite narrow_fields by (pow_numerals; lia).
        destruct (Z.eqb_spec (d + 874) 2047); [lia|].
        destruct (Z.eqb_spec (d + 874) 0); [lia|].
        cbv zeta. destruct (Z.leb_spec 897 (d + 874)); [lia|].
        replace (2 ^ 52 + (m * 2 ^ (52 - d) - 2 ^ 52)) with (m * 2 ^ (52 - d)) by lia.
        replace (29 + (897 - (d + 874))) with (52 - d) by lia.
        rewrite round_half_even_exact by lia.
        destruct (Z.leb_spec 0x7F800000 m); [pow_numerals; lia|].
        f_equal. lia.
    + rewrite narrow_fields by (pow_numerals; lia).
      destruct (Z.eqb_spec (e + 896) 2047); [pow_numerals; lia|].
      destruct (Z.eqb_spec (e + 896) 0); [lia|].
      cbv zeta. destruct (Z.leb_spec 897 (e + 896)); [|lia].
      replace (2 ^ 52 + m * 2 ^ 29) with ((2 ^ 23 + m) * 2 ^ 29) by (pow_numerals; lia).
      rewrite round_half_even_exact by lia.
      destruct (Z.leb_spec 0x7F800000 ((e + 896 - 897) * 2 ^ 23 + (2 ^ 23 + m)));
        [pow_numerals; lia|].
      f_equal. lia.
Qed.

(** The encoding of a signalling NaN comes back with the quiet bit set. *)
Lemma narrow_widen_signalling y :
  0 <= y < 2 ^ 32 -> signalling_nan32 y = true ->
  narrow_to_single (widen_single y) = Ok (y + 2 ^ 22).
Proof.
  intros Hy Hq. unfold widen_single. unfold signalling_nan32 in Hq.
  destruct (single_fields y Hy) as (Hs & He & Hm & Heq).
  revert Hq Hs He Hm Heq.
  generalize ((y / 2 ^ 31) mod 2), ((y / 2 ^ 23) mod 2 ^ 8), (y mod 2 ^ 23).
  intros s e m Hq Hs He Hm ->.
  destruct (Z.eqb_spec e 255) as [->|]; [|done].
  destruct (Z.eqb_spec m 0) as [|Hm0]; [done|].
  cbn [andb negb] in Hq. apply Z.ltb_lt in Hq.
  replace (s * 2 ^ 63 + 0x7FF8000000000000 + m mod 2 ^ 22 * 2 ^ 29)
    with (s * 2 ^ 63 + 2047 * 2 ^ 52 + (2 ^ 51 + m * 2 ^ 29))
    by (pow_numerals; Z.div_mod_to_equations; lia).
  rewrite narrow_fields by (pow_numerals; lia). cbn [Z.eqb Pos.eqb].
  destruct (Z.eqb_spec (2 ^ 51 + m * 2 ^ 29) 0); [pow_numerals; lia|].
  f_equal. pow_numerals. Z.div_mod_to_equations. lia.
Qed.

Lemma pack_float_length c n v bs :
  c = "f"%char \/ c = "d"%char -> code_size c = Some n ->
  pack_float c v = Ok bs -> length bs = n.
Proof.
  unfold pack_float. intros Hc Hn.
  destruct (as_number v) as [x|]; [|done].
  destruct (number_to_float x) as [f|]; [|done].
  destruct Hc as [-> | ->]; injection Hn as <-.
  - destruct (narrow_to_single f) as [y|]; [|done]. by intros [= <-].
  - by intros [= <-].
Qed.

(** ** The registry *)

Section Registry.
Context `{NumericText}.

Lemma Table_2904_NoDup : NoDup (Table_2904_items.*1).
Proof. apply (bool_decide_unpack _). by vm_compute. Qed.

Lemma Table_2904_lookup code entry :
  Table_2904_bytes_format !! code = Some entry <-> (code, entry) ∈ Table_2904_items.
Proof.
  unfold Table_2904_bytes_format. symmetry.
  apply elem_of_list_to_map, Table_2904_NoDup.
Qed.

Lemma Table_2904_lookup_None code :
  Table_2904_bytes_format !! code = None <-> code ∉ Table_2904_items.*1.
Proof. unfold Table_2904_bytes_format. symmetry. apply not_elem_of_list_to_map. Qed.

End Registry.

(** ** The pack marshaller on integer entries *)

Section IntegerEntries.
Context `{NumericText}.

Lemma registry_integer code entry :
  Table_2904_bytes_format !! code = Some entry ->
  code ∉ [1; 20; 21; 25; 27] ->
  exists c n, c ∈ integer_codes /\ code_size c = Some n /\ entry = integer_entry c n.
Proof.
  intros Hl Hc. apply Table_2904_lookup in Hl. unfold Table_2904_items in Hl.
  repeat (apply elem_of_cons in Hl as [[= -> ->]|Hl];
    [first [ exfalso; apply Hc; decide_list
           | lazymatch goal with
             | |- exists c n, _ /\ _ /\ (_, _, _, Some (String _ (String ?ch _))) = _ =>
                 exists ch; eexists; split; [|split; reflexivity];
                 unfold integer_codes; decide_list
             end ]|]).
  by apply elem_of_nil in Hl.
Qed.

Lemma pack_int_length signed n v bs : pack_int signed n v = Ok bs -> length bs = n.
Proof.
  unfold pack_int. destruct (py_index v); [|done].
  destruct (_ && _); [|done]. intros [= <-]. apply le_bytes_length.
Qed.

Lemma init_integer_entry c n u m :
  BleakGATTPackMarshaller.init (integer_entry c n) 0 u = Ok m ->
  m = {| BleakGATTPackMarshaller.frompython := py_int;
         BleakGATTPackMarshaller.topython := py_int;
         BleakGATTPackMarshaller.length := Some (Z.of_nat n);
         BleakGATTPackMarshaller.format := Some (single_format c);
         BleakGATTPackMarshaller.exponent := 0;
         BleakGATTPackMarshaller.unit := u |}.
Proof. cbn. by intros [= <-]. Qed.

Lemma unmarshall_integer c n u m bs :
  c ∈ integer_codes -> code_size c = Some n ->
  BleakGATTPackMarshaller.init (integer_entry c n) 0 u = Ok m ->
  length bs = n ->
  BleakGATTPackMarshaller.unmarshall m bs = Ok (VInt (unpack_int (code_signed c) bs)).
Proof.
  intros Hc Hn ->%init_integer_entry Hlen.
  pose proof (code_size_integer _ _ Hc Hn) as Hpos.
  unfold BleakGATTPackMarshaller.unmarshall. cbn [BleakGATTPackMarshaller.length
    BleakGATTPackMarshaller.format BleakGATTPackMarshaller.topython
    BleakGATTPackMarshaller.exponent py_not].
  destruct (Z.eqb_spec (Z.of_nat n) 0); [lia|].
  unfold len. rewrite Hlen. rewrite decide_True by done.
  unfold BleakGATTPackMarshaller.unpack.
  rewrite (struct_unpack_single c n) by done. cbn.
  by rewrite unpack_field_integer.
Qed.

Lemma marshall_integer c n u m z :
  c ∈ integer_codes -> code_size c = Some n ->
  BleakGATTPackMarshaller.init (integer_entry c n) 0 u = Ok m ->
  BleakGATTPackMarshaller.marshall m (VInt z)
  = (bs ← pack_int (code_signed c) n (VInt z); Ok (VBytes bs)).
Proof.
  intros Hc Hn ->%init_integer_entry.
  pose proof (code_size_integer _ _ Hc Hn) as Hpos.
  unfold BleakGATTPackMarshaller.marshall. cbn [BleakGATTPackMarshaller.length
    BleakGATTPackMarshaller.format BleakGATTPackMarshaller.frompython
    BleakGATTPackMarshaller.exponent py_not].
  destruct (Z.eqb_spec (Z.of_nat n) 0); [lia|]. cbn -[struct_pack pack_int].
  rewrite (struct_pack_single c n) by done.
  rewrite (pack_field_integer c n) by done.
  destruct (pack_int (code_signed c) n (VInt z)) as [bs|] eqn:E; [|done]. cbn.
  rewrite app_nil_r. apply pack_int_length in E.
  unfold len. rewrite E. by rewrite decide_True.
Qed.

End IntegerEntries.

(** ** Round trips of the fixed-width entries *)

Section FixedWidth.
Context `{NumericText}.

Lemma Table_2904_at_1 :
  Table_2904_bytes_format !! 1 = Some (py_bool, py_bool, Some 1, Some "<?"%string).
Proof. apply Table_2904_lookup. find_item. Qed.

Lemma Table_2904_at_18 :
  Table_2904_bytes_format !! 18 = Some (py_int, py_int, Some 8, Some "<Q"%string).
Proof. apply Table_2904_lookup. find_item. Qed.

Lemma Table_2904_at_25 :
  Table_2904_bytes_format !! 25 = Some (str2bytes, bytes2str, None, None).
Proof. apply Table_2904_lookup. find_item. Qed.

Lemma Table_2904_at_27 :
  Table_2904_bytes_format !! 27 = Some (py_bytes, py_bytes, None, None).
Proof. apply Table_2904_lookup. find_item. Qed.

(** Every value an integer entry encodes is decoded to itself. *)
Lemma unmarshall_marshall_integer code entry u m z bs :
  Table_2904_bytes_format !! code = Some entry ->
  code ∉ [1; 20; 21; 25; 27] ->
  BleakGATTPackMarshaller.init entry 0 u = Ok m ->
  marshall (Pack m) (VInt z) = Ok (VBytes bs) ->
  unmarshall (Pack m) bs = Ok (VInt z).
Proof.
  intros Hl Hc Hm. destruct (registry_integer _ _ Hl Hc) as (c & n & Hic & Hn & ->).
  cbn [marshall unmarshall].
  rewrite (marshall_integer c n u m z) by done.
  destruct (pack_int (code_signed c) n (VInt z)) as [bs'|] eqn:E; [|done].
  intros [= ->].
  rewrite (unmarshall_integer c n u m bs) by eauto using pack_int_length.
  apply unpack_pack_int in E; [|by eapply code_size_integer].
  cbn in E. by injection E as <-.
Qed.

(** C1 (defect): the entry of code 18, documented as the 64-bit signed
    integer, packs with the unsigned layout ["<Q"]: encoding [-1] raises
    [struct.error], so the value is not reproduced by a round trip. *)
Theorem marshall_code_18_negative :
  exists entry m,
    Table_2904_bytes_format !! 18 = Some entry /\
    BleakGATTPackMarshaller.init entry 0 0 = Ok m /\
    marshall (Pack m) (VInt (-1)) = Raise StructError.
Proof.
  eexists _, _. split; [apply Table_2904_at_18|]. split; reflexivity.
Qed.

(** C2 (defect): codes 12, 13, 14 and 16 carry the signed layouts
    ["<b"], ["<h"], ["<h"] and ["<i"] of widths 1, 2, 2 and 4, but code 18
    carries the unsigned ["<Q"]: the eight bytes FF decode to 2^64 - 1. *)
Theorem unmarshall_code_18_all_ones :
  Table_2904_bytes_format !! 12 = Some (py_int, py_int, Some 1, Some "<b"%string) /\
  Table_2904_bytes_format !! 13 = Some (py_int, py_int, Some 2, Some "<h"%string) /\
  Table_2904_bytes_format !! 14 = Some (py_int, py_int, Some 2, Some "<h"%string) /\
  Table_2904_bytes_format !! 16 = Some (py_int, py_int, Some 4, Some "<i"%string) /\
  Table_2904_bytes_format !! 18 = Some (py_int, py_int, Some 8, Some "<Q"%string) /\
  exists m,
    BleakGATTPackMarshaller.init (py_int, py_int, Some 8, Some "<Q"%string) 0 0 = Ok m /\
    unmarshall (Pack m) [xff; xff; xff; xff; xff; xff; xff; xff]
    = Ok (VInt 18446744073709551615).
Proof.
  repeat (split; [apply Table_2904_lookup; find_item|]).
  eexists. split; reflexivity.
Qed.

Lemma Table_2904_at_20 :
  Table_2904_bytes_format !! 20 = Some (py_float, py_float, Some 4, Some "<f"%string).
Proof. apply Table_2904_lookup. find_item. Qed.

Lemma Table_2904_at_21 :
  Table_2904_bytes_format !! 21 = Some (py_float, py_float, Some 8, Some "<d"%string).
Proof. apply Table_2904_lookup. find_item. Qed.

(** A floating-point entry decodes a byte string of its width to the
    float its layout reads, and encodes this float to what the layout packs. *)
Lemma float_entry_round_trip c n u b out :
  c = "f"%char /\ n = 4%nat \/ c = "d"%char /\ n = 8%nat ->
  length b = n ->
  pack_float c (VFloat (unpack_float c b)) = Ok out ->
  let m := BleakGATTPackMarshaller.Build_t py_float py_float (Some (Z.of_nat n))
             (Some (single_format c)) 0 u in
  unmarshall (Pack m) b = Ok (VFloat (unpack_float c b)) /\
  marshall (Pack m) (VFloat (unpack_float c b)) = Ok (VBytes out).
Proof.
  intros Hc Hlen Hp m.
  assert (code_size c = Some n /\ (0 < n)%nat) as [Hn Hpos].
  { destruct Hc as [(-> & ->)|(-> & ->)]; split; first [reflexivity | lia]. }
  assert (unpack_field c b = VFloat (unpack_float c b)) as Hu.
  { by destruct Hc as [(-> & _)|(-> & _)]. }
  assert (pack_field c (VFloat (unpack_float c b)) = Ok out) as Hf.
  { rewrite <- Hp. by destruct Hc as [(-> & _)|(-> & _)]. }
  assert (length out = n) as Hout.
  { apply (pack_float_length c n _ _) in Hp; [done| |done].
    destruct Hc as [(-> & _)|(-> & _)]; auto. }
  subst m. cbn [marshall unmarshall]. split.
  - unfold BleakGATTPackMarshaller.unmarshall. cbn [BleakGATTPackMarshaller.length
      BleakGATTPackMarshaller.format BleakGATTPackMarshaller.topython
      BleakGATTPackMarshaller.exponent py_not].
    destruct (Z.eqb_spec (Z.of_nat n) 0); [lia|].
    unfold len. rewrite Hlen, decide_True by done.
    unfold BleakGATTPackMarshaller.unpack.
    rewrite (struct_unpack_single c n) by done. cbn [mbind result_bind].
    by rewrite Hu.
  - unfold BleakGATTPackMarshaller.marshall. cbn [BleakGATTPackMarshaller.length
      BleakGATTPackMarshaller.format BleakGATTPackMarshaller.frompython
      BleakGATTPackMarshaller.exponent py_not].
    destruct (Z.eqb_spec (Z.of_nat n) 0); [lia|].
    cbn -[struct_pack pack_field].
    rewrite (struct_pack_single c n) by done. rewrite Hf. cbn.
    rewrite app_nil_r. unfold len. by rewrite Hout, decide_True.
Qed.

(** The two floating-point entries: the eight bytes of a double are kept as
    they are, the four bytes of a single are widened and narrowed again. *)
Lemma marshall_unmarshall_float c n u b :
  c = "f"%char /\ n = 4%nat /\ signalling_nan32 (le_int b) = false \/
  c = "d"%char /\ n = 8%nat ->
  length b = n ->
  let m := BleakGATTPackMarshaller.Build_t py_float py_float (Some (Z.of_nat n))
             (Some (single_format c)) 0 u in
  unmarshall (Pack m) b = Ok (VFloat (unpack_float c b)) /\
  marshall (Pack m) (VFloat (unpack_float c b)) = Ok (VBytes b).
Proof.
  intros Hc Hlen. apply float_entry_round_trip; [tauto|done|].
  destruct Hc as [(-> & -> & Hq)|(-> & ->)];
    cbn -[le_bytes le_int narrow_to_single widen_single].
  - pose proof (le_int_range b) as Hr. rewrite Hlen in Hr.
    change (256 ^ Z.of_nat 4) with (2 ^ 32) in Hr.
    rewrite narrow_widen by done. cbn [mbind result_bind].
    by rewrite <- Hlen, le_bytes_le_int.
  - by rewrite <- Hlen, le_bytes_le_int.
Qed.

(** On the entry of the 32-bit float, the four bytes of a signalling NaN
    come back with the quiet bit, bit 22, set. *)
Lemma signalling_nan_round_trip u b :
  length b = 4%nat -> signalling_nan32 (le_int b) = true ->
  let m := BleakGATTPackMarshaller.Build_t py_float py_float (Some 4)
             (Some "<f"%string) 0 u in
  unmarshall (Pack m) b = Ok (VFloat (unpack_float "f" b)) /\
  marshall (Pack m) (VFloat (unpack_float "f" b))
  = Ok (VBytes (le_bytes 4 (le_int b + 2 ^ 22))).
Proof.
  intros Hlen Hq. apply (float_entry_round_trip "f" 4 u b); [auto|done|].
  cbn -[le_bytes le_int narrow_to_single widen_single].
  pose proof (le_int_range b) as Hr. rewrite Hlen in Hr.
  change (256 ^ Z.of_nat 4) with (2 ^ 32) in Hr.
  by rewrite narrow_widen_signalling.
Qed.

Lemma marshall_unmarshall_entry code entry n u m b :
  Table_2904_bytes_format !! code = Some entry ->
  entry.1.2 = Some n ->
  (code = 1 -> b = [x00] \/ b = [x01]) ->
  (code = 20 -> signalling_nan32 (le_int b) = false) ->
  BleakGATTPackMarshaller.init entry 0 u = Ok m ->
  len b = n ->
  exists v, unmarshall (Pack m) b = Ok v /\ marshall (Pack m) v = Ok (VBytes b).
Proof.
  intros Hl Hw Hb Hq Hm Hlen.
  destruct (decide (code = 1)) as [->|H1].
  { rewrite Table_2904_at_1 in Hl. injection Hl as <-. injection Hm as <-.
    destruct (Hb eq_refl) as [-> | ->]; eexists; split; reflexivity. }
  destruct (decide (code = 20)) as [->|H20].
  { rewrite Table_2904_at_20 in Hl. injection Hl as <-. injection Hm as <-.
    injection Hw as <-. unfold len in Hlen. apply (Nat2Z.inj _ 4%nat) in Hlen.
    exists (VFloat (unpack_float "f" b)).
    apply (marshall_unmarshall_float "f" 4 u b); [left; auto|done]. }
  destruct (decide (code = 21)) as [->|H21].
  { rewrite Table_2904_at_21 in Hl. injection Hl as <-. injection Hm as <-.
    injection Hw as <-. unfold len in Hlen. apply (Nat2Z.inj _ 8%nat) in Hlen.
    exists (VFloat (unpack_float "d" b)).
    apply (marshall_unmarshall_float "d" 8 u b); [right; auto|done]. }
  destruct (decide (code ∈ [25; 27])) as [Hv|Hv].
  - repeat (apply elem_of_cons in Hv as [->|Hv]);
      [rewrite Table_2904_at_25 in Hl; by injection Hl as <-
      |rewrite Table_2904_at_27 in Hl; by injection Hl as <-
      |by apply elem_of_nil in Hv].
  - assert (code ∉ [1; 20; 21; 25; 27]) as Hc.
    { intros Hin. repeat (apply elem_of_cons in Hin as [->|Hin]);
        [done | done | done
        | apply Hv; decide_list | apply Hv; decide_list
        | by apply elem_of_nil in Hin]. }
    destruct (registry_integer _ _ Hl Hc) as (c & k & Hic & Hk & ->).
    cbn in Hw. injection Hw as <-. unfold len in Hlen. apply Nat2Z.inj in Hlen.
    exists (VInt (unpack_int (code_signed c) b)).
    cbn [marshall unmarshall].
    rewrite (unmarshall_integer c k u m b) by done.
    rewrite (marshall_integer c k u m) by done.
    subst k. rewrite pack_unpack_int by (by eapply code_size_integer). done.
Qed.

(** C3 (as amended): for every fixed-width entry, with exponent 0, encoding
    the decoding of a byte string of the entry's width gives the byte string
    back, where under the boolean code 1 the byte string is one of the bytes
    00 and 01, and under the code 20 of the 32-bit float it is not the
    encoding of a signalling NaN. *)
Theorem marshall_unmarshall_fixed code f t n fmt u m b :
  Table_2904_bytes_format !! code = Some (f, t, Some n, fmt) ->
  (code = 1 -> b = [x00] \/ b = [x01]) ->
  (code = 20 -> signalling_nan32 (le_int b) = false) ->
  BleakGATTPackMarshaller.init (f, t, Some n, fmt) 0 u = Ok m ->
  len b = n ->
  exists v, unmarshall (Pack m) b = Ok v /\ marshall (Pack m) v = Ok (VBytes b).
Proof. intros Hl. by apply marshall_unmarshall_entry. Qed.

(** X30: on the entry of code 20, the 32-bit float, with exponent 0, the
    four bytes of a signalling NaN do not survive decoding and encoding:
    they come back with the quiet bit set, hence as other bytes. *)
Theorem signalling_nan_is_quieted f t n fmt u m b :
  Table_2904_bytes_format !! 20 = Some (f, t, Some n, fmt) ->
  BleakGATTPackMarshaller.init (f, t, Some n, fmt) 0 u = Ok m ->
  len b = n ->
  signalling_nan32 (le_int b) = true ->
  exists v out,
    unmarshall (Pack m) b = Ok v /\
    marshall (Pack m) v = Ok (VBytes out) /\
    le_int out = le_int b + 2 ^ 22 /\
    out <> b.
Proof.
  rewrite Table_2904_at_20. intros [= <- <- <- <-] [= <-] Hlen Hq.
  unfold len in Hlen. apply (Nat2Z.inj _ 4%nat) in Hlen.
  destruct (signalling_nan_round_trip u b Hlen Hq) as [Hdec Henc].
  eexists _, _. split; [exact Hdec|]. split; [exact Henc|].
  pose proof (le_int_range b) as Hr. rewrite Hlen in Hr.
  change (256 ^ Z.of_nat 4) with (2 ^ 32) in Hr.
  assert (le_int b + 2 ^ 22 < 2 ^ 32) as Hlt.
  { unfold signalling_nan32 in Hq.
    destruct (Z.eqb_spec ((le_int b / 2 ^ 23) mod 2 ^ 8) 255) as [He|]; [|done].
    destruct (Z.eqb_spec (le_int b mod 2 ^ 23) 0); [done|].
    cbn [andb negb] in Hq. apply Z.ltb_lt in Hq.
    pow_numerals. Z.div_mod_to_equations. lia. }
  assert (le_int (le_bytes 4 (le_int b + 2 ^ 22)) = le_int b + 2 ^ 22) as Hval.
  { rewrite le_int_le_bytes. change (256 ^ Z.of_nat 4) with (2 ^ 32).
    apply Z.mod_small. lia. }
  split; [done|]. intros Heq. rewrite Heq in Hval. pow_numerals. lia.
Qed.

End FixedWidth.

Lemma marshall_unmarshall_fixed_witness :
  exists v, unmarshall (Pack (BleakGATTPackMarshaller.Build_t
                                (@py_float rejecting_text) (@py_float rejecting_text)
                                (Some 4) (Some "<f"%string) 0 0))
              [x00; x00; xc0; x3f] = Ok v /\
            marshall (Pack (BleakGATTPackMarshaller.Build_t
                                (@py_float rejecting_text) (@py_float rejecting_text)
                                (Some 4) (Some "<f"%string) 0 0)) v
            = Ok (VBytes [x00; x00; xc0; x3f]).
Proof.
  apply (@marshall_unmarshall_fixed rejecting_text 20
           (@py_float rejecting_text) (@py_float rejecting_text) 4 (Some "<f"%string) 0).
  - apply Table_2904_lookup. find_item.
  - intros [=].
  - intros _. reflexivity.
  - reflexivity.
  - reflexivity.
Defined.

(** C3 (counterexample): under the boolean code 1 the byte 02 decodes to
    [True], and [True] encodes to the byte 01; under the code 20 the bytes
    01 00 80 7F, a signalling NaN, decode to a quiet NaN, which encodes to
    01 00 C0 7F. *)
Lemma round_trip_changes_bytes :
  exists b1 b4 : pybytes,
    len b1 = 1 /\ len b4 = 4 /\
    forall N : NumericText,
      (exists f t fmt m,
         Table_2904_bytes_format !! 1 = Some (f, t, Some 1, fmt) /\
         BleakGATTPackMarshaller.init (f, t, Some 1, fmt) 0 0 = Ok m /\
         unmarshall (Pack m) b1 = Ok (VBool true) /\
         marshall (Pack m) (VBool true) = Ok (VBytes [x01]) /\
         [x01] <> b1) /\
      (exists f t fmt m,
         Table_2904_bytes_format !! 20 = Some (f, t, Some 4, fmt) /\
         BleakGATTPackMarshaller.init (f, t, Some 4, fmt) 0 0 = Ok m /\
         unmarshall (Pack m) b4 = Ok (VFloat 0x7FF8000020000000) /\
         marshall (Pack m) (VFloat 0x7FF8000020000000) = Ok (VBytes [x01; x00; xc0; x7f]) /\
         [x01; x00; xc0; x7f] <> b4).
Proof.
  exists [x02], [x01; x00; x80; x7f]. split; [reflexivity|]. split; [reflexivity|].
  intros N. split.
  - eexists _, _, _, _. split; [apply Table_2904_at_1|].
    repeat split; try reflexivity. discriminate.
  - eexists _, _, _, _. split; [apply Table_2904_at_20|].
    repeat split; try reflexivity. discriminate.
Qed.

(** ** The resolver *)

Section Resolver.
Context `{NumericText}.

Lemma get_marshaller_no_override table uuid :
  no_override table uuid ->
  (if py_truth (VStr uuid) then table !! uuid else None) = None.
Proof. intros [-> | ->]; [done|]. by destruct (py_truth _). Qed.

(** What resolution does once the record of the descriptor is read. *)
Lemma get_marshaller_record table client uuid d data code e u ns ds :
  no_override table uuid ->
  descriptor_value client (handle d) = Ok data ->
  struct_unpack "<BbHBH" data = Ok [VInt code; VInt e; VInt u; VInt ns; VInt ds] ->
  BleakGATTMarshaller.get_marshaller table client uuid (Some d)
  = match Table_2904_bytes_format !! code with
    | Some entry =>
        IO [ReadDescriptor (handle d)] (Pack <$> BleakGATTPackMarshaller.init entry e u)
    | None =>
        IO [ReadDescriptor (handle d); Warning (no_marshaller_found client uuid)]
           (Ok Passthrough)
    end.
Proof.
  intros Hno Hread Hrec. unfold BleakGATTMarshaller.get_marshaller.
  rewrite get_marshaller_no_override by done.
  unfold read_gatt_descriptor, mbind, io_bind, lift. cbn [outcome trace].
  rewrite Hread. cbn [outcome trace]. rewrite Hrec. cbn [outcome trace].
  destruct (Table_2904_bytes_format !! code) as [entry|]; [|reflexivity].
  cbn [outcome trace]. unfold fmap.
  destruct (BleakGATTPackMarshaller.init entry e u); reflexivity.
Qed.

(** X2: when no override applies and the descriptor holds seven bytes,
    resolution takes the format code from the first byte, the exponent from
    the second byte read as a signed number, and the unit from the third and
    fourth bytes, least significant first; the last three bytes, namespace
    and description, play no part.  A code in the registry gives the pack
    marshaller of its entry, or the failure of its constructor; any other
    code gives the warning and the passthrough marshaller. *)
Theorem record_field_layout table client uuid d b0 b1 b2 b3 b4 b5 b6 :
  no_override table uuid ->
  descriptor_value client (handle d) = Ok [b0; b1; b2; b3; b4; b5; b6] ->
  BleakGATTMarshaller.get_marshaller table client uuid (Some d)
  = match Table_2904_bytes_format !! Z_of_byte b0 with
    | Some entry =>
        IO [ReadDescriptor (handle d)]
           (Pack <$> BleakGATTPackMarshaller.init entry
                       (unpack_int true [b1]) (unpack_int false [b2; b3]))
    | None =>
        IO [ReadDescriptor (handle d); Warning (no_marshaller_found client uuid)]
           (Ok Passthrough)
    end.
Proof.
  intros Hno Hread.
  rewrite (get_marshaller_record table client uuid d _
             (unpack_int false [b0]) (unpack_int true [b1]) (unpack_int false [b2; b3])
             (unpack_int false [b4]) (unpack_int false [b5; b6]) Hno Hread eq_refl).
  replace (unpack_int false [b0]) with (Z_of_byte b0); [done|].
  cbn. lia.
Qed.

End Resolver.

Section Contracts.
Context `{NumericText}.

Lemma registry_width code entry n :
  Table_2904_bytes_format !! code = Some entry -> entry.1.2 = Some n -> 0 < n.
Proof.
  intros Hl Hw. apply Table_2904_lookup in Hl. unfold Table_2904_items in Hl.
  repeat (apply elem_of_cons in Hl as [[= -> ->]|Hl];
    [cbn in Hw; first [discriminate Hw | injection Hw as <-; lia]|]).
  by apply elem_of_nil in Hl.
Qed.

(** C4: for every entry of the registry, the constructor raises [NameError]
    when the exponent is not 0 and succeeds when it is 0; hence resolving an
    attribute whose record names a registered format and a non-zero exponent
    ends in [NameError], after the read of the descriptor. *)
Theorem init_nonzero_exponent :
  (forall code entry e u,
     Table_2904_bytes_format !! code = Some entry -> e <> 0 ->
     BleakGATTPackMarshaller.init entry e u = Raise NameError) /\
  (forall code entry u,
     Table_2904_bytes_format !! code = Some entry ->
     exists m, BleakGATTPackMarshaller.init entry 0 u = Ok m) /\
  (forall table client uuid d data code entry e u ns ds,
     no_override table uuid ->
     descriptor_value client (handle d) = Ok data ->
     struct_unpack "<BbHBH" data = Ok [VInt code; VInt e; VInt u; VInt ns; VInt ds] ->
     Table_2904_bytes_format !! code = Some entry -> e <> 0 ->
     BleakGATTMarshaller.get_marshaller table client uuid (Some d)
     = IO [ReadDescriptor (handle d)] (Raise NameError)).
Proof.
  assert (forall entry e u, e <> 0 ->
            BleakGATTPackMarshaller.init entry e u = Raise NameError) as Hinit.
  { intros [[[f t] l] fmt] e u He. cbn. by destruct (Z.eqb_spec e 0). }
  split; [|split].
  - intros code entry e u _ He. by apply Hinit.
  - intros code [[[f t] l] fmt] u _. eexists. reflexivity.
  - intros table client uuid d data code entry e u ns ds Hno Hread Hrec Hl He.
    rewrite (get_marshaller_record _ _ _ _ _ _ _ _ _ _ Hno Hread Hrec), Hl.
    by rewrite Hinit.
Qed.

(** C5 (defect): with format code 8 and exponent 2, [unmarshall] on the
    bytes of 1234 gives the float 123400.0 and [marshall] on 123400 gives
    the bytes of 1234, on an instance holding these attributes; but the
    constructor raises [NameError] for the exponent 2, so no such instance
    is ever made. *)
Theorem exponent_2_scaling :
  exists f t fmt scaled,
    Table_2904_bytes_format !! 8 = Some (f, t, Some 4, fmt) /\
    BleakGATTPackMarshaller.init (f, t, Some 4, fmt) 2 0 = Raise NameError /\
    float_of_Z 123400 = Ok scaled /\
    let m := BleakGATTPackMarshaller.Build_t f t (Some 4) fmt 2 0 in
    unmarshall (Pack m) (le_bytes 4 1234) = Ok (VFloat scaled) /\
    marshall (Pack m) (VInt 123400) = Ok (VBytes (le_bytes 4 1234)).
Proof.
  eexists _, _, _, _. split; [apply Table_2904_lookup; find_item|].
  repeat split; vm_compute; reflexivity.
Qed.

(** C6: on every fixed-width marshaller -- any conversions, any layout,
    any exponent, a width other than 0 -- decoding a byte string of another
    length raises [AssertionError], whatever the layout and the conversion
    would have made of it; whatever encoding returns is a byte string of
    exactly the width; and when the scaled and converted value packs into a
    byte string of another length, encoding raises [AssertionError]. *)
Theorem fixed_width_length f t n fmt e u :
  n <> 0 ->
  let m := BleakGATTPackMarshaller.Build_t f t (Some n) fmt e u in
  (forall bs, len bs <> n -> unmarshall (Pack m) bs = Raise AssertionError) /\
  (forall v r, marshall (Pack m) v = Ok r -> exists out, r = VBytes out /\ len out = n) /\
  (forall v scaled x out,
     (if 0 <? e then py_truediv v (VInt (10 ^ e))
      else if e <? 0 then py_mul v (VInt (10 ^ (- e)))
      else Ok v) = Ok scaled ->
     f scaled = Ok x ->
     BleakGATTPackMarshaller.pack fmt x = Ok out ->
     len out <> n ->
     marshall (Pack m) v = Raise AssertionError).
Proof.
  intros Hn m.
  assert (py_not (Some n) = false) as Hnot by (cbn; by destruct (Z.eqb_spec n 0); [lia|]).
  split; [|split].
  - intros bs Hlen. cbn [unmarshall]. unfold BleakGATTPackMarshaller.unmarshall.
    subst m. cbn [BleakGATTPackMarshaller.length]. rewrite Hnot.
    rewrite decide_False; [done|]. by intros [= ?].
  - intros v r. cbn [marshall]. unfold BleakGATTPackMarshaller.marshall.
    subst m. cbn [BleakGATTPackMarshaller.length BleakGATTPackMarshaller.exponent
      BleakGATTPackMarshaller.frompython BleakGATTPackMarshaller.format].
    rewrite Hnot.
    destruct (if 0 <? e then _ else _) as [data|]; [|done]. cbn [mbind result_bind].
    destruct (f data) as [data'|]; [|done]. cbn [mbind result_bind].
    destruct (BleakGATTPackMarshaller.pack fmt data') as [out|]; [|done].
    cbn [mbind result_bind].
    destruct (decide (Some (len out) = Some n)) as [Heq|]; [|done].
    intros [= <-]. exists out. split; [done|]. by injection Heq.
  - intros v scaled x out Hscaled Hx Hout Hlen. cbn [marshall].
    unfold BleakGATTPackMarshaller.marshall.
    subst m. cbn [BleakGATTPackMarshaller.length BleakGATTPackMarshaller.exponent
      BleakGATTPackMarshaller.frompython BleakGATTPackMarshaller.format].
    rewrite Hnot, Hscaled. cbn [mbind result_bind].
    rewrite Hx. cbn [mbind result_bind]. rewrite Hout. cbn [mbind result_bind].
    rewrite decide_False; [done|]. by intros [= ?].
Qed.

(** C7: when no override applies and the record read from the descriptor
    names a format code that the registry lacks, resolution reads the
    descriptor, emits one warning and returns the passthrough marshaller,
    which decodes every byte string to itself; the codes 7, 9, 11, 15, 17
    and 19 are such codes. *)
Theorem unsupported_format_passthrough :
  (forall table client uuid d data code e u ns ds,
     no_override table uuid ->
     descriptor_value client (handle d) = Ok data ->
     struct_unpack "<BbHBH" data = Ok [VInt code; VInt e; VInt u; VInt ns; VInt ds] ->
     Table_2904_bytes_format !! code = None ->
     BleakGATTMarshaller.get_marshaller table client uuid (Some d)
     = IO [ReadDescriptor (handle d); Warning (no_marshaller_found client uuid)]
          (Ok Passthrough)) /\
  (forall b, unmarshall Passthrough b = Ok (VBytes b)) /\
  (forall code, code ∈ [7; 9; 11; 15; 17; 19] -> Table_2904_bytes_format !! code = None).
Proof.
  split; [|split].
  - intros table client uuid d data code e u ns ds Hno Hread Hrec Hl.
    by rewrite (get_marshaller_record _ _ _ _ _ _ _ _ _ _ Hno Hread Hrec), Hl.
  - reflexivity.
  - intros code Hc. apply Table_2904_lookup_None.
    repeat (apply elem_of_cons in Hc as [->|Hc]; [decide_list|]).
    by apply elem_of_nil in Hc.
Qed.

(** C8: for a non-empty identifier that is a key of the override table,
    resolution returns what the registered factory returns and performs no
    read and emits no warning, whether or not a descriptor is supplied. *)
Theorem override_short_circuit (table : BleakGATTMarshaller.overrides)
    client uuid descr_2904 factory :
  uuid <> [] ->
  table !! uuid = Some factory ->
  BleakGATTMarshaller.get_marshaller table client uuid descr_2904
  = IO [] (factory ()).
Proof.
  intros Hu Hf. unfold BleakGATTMarshaller.get_marshaller.
  destruct uuid as [|c r]; [done|]. change (py_truth (VStr (c :: r))) with true.
  cbn iota. by rewrite Hf.
Qed.

End Contracts.

(** ** The UTF-8 codec *)

Lemma Z_of_byte_of_Z_small z : 0 <= z < 256 -> Z_of_byte (byte_of_Z z) = z.
Proof. intros Hz. rewrite Z_of_byte_of_Z. by apply Z.mod_small. Qed.

Lemma continuation_of x : 0 <= x < 64 -> continuation (byte_of_Z (0x80 + x)) = Some x.
Proof.
  intros Hx. unfold continuation. rewrite Z_of_byte_of_Z_small by lia.
  destruct (Z.leb_spec 0x80 (0x80 + x)); [|lia].
  destruct (Z.ltb_spec (0x80 + x) 0xC0); [|lia].
  cbn. f_equal. lia.
Qed.

Lemma utf8_decode_1 z r :
  0 <= z < 0x80 ->
  utf8_decode (byte_of_Z z :: r) = cons z <$> utf8_decode r.
Proof.
  intros Hz. cbn [utf8_decode]. rewrite Z_of_byte_of_Z_small by lia.
  by range_cases.
Qed.

Lemma utf8_decode_2 z x1 r :
  0xC2 <= z < 0xE0 -> 0 <= x1 < 64 ->
  utf8_decode (byte_of_Z z :: byte_of_Z (0x80 + x1) :: r)
  = cons ((z - 0xC0) * 64 + x1) <$> utf8_decode r.
Proof.
  intros Hz H1. cbn [utf8_decode]. rewrite Z_of_byte_of_Z_small by lia.
  rewrite continuation_of by done. by range_cases.
Qed.

Lemma utf8_decode_3 z x1 x2 r :
  0xE0 <= z < 0xF0 -> 0 <= x1 < 64 -> 0 <= x2 < 64 ->
  0x800 <= (z - 0xE0) * 4096 + x1 * 64 + x2 ->
  is_surrogate ((z - 0xE0) * 4096 + x1 * 64 + x2) = false ->
  utf8_decode (byte_of_Z z :: byte_of_Z (0x80 + x1) :: byte_of_Z (0x80 + x2) :: r)
  = cons ((z - 0xE0) * 4096 + x1 * 64 + x2) <$> utf8_decode r.
Proof.
  intros Hz H1 H2 Hc Hs. cbn [utf8_decode]. rewrite Z_of_byte_of_Z_small by lia.
  rewrite !continuation_of by done. cbn zeta. rewrite Hs.
  by range_cases.
Qed.

Lemma utf8_decode_4 z x1 x2 x3 r :
  0xF0 <= z < 0xF5 -> 0 <= x1 < 64 -> 0 <= x2 < 64 -> 0 <= x3 < 64 ->
  0x10000 <= (z - 0xF0) * 262144 + x1 * 4096 + x2 * 64 + x3 < 0x110000 ->
  utf8_decode (byte_of_Z z :: byte_of_Z (0x80 + x1) :: byte_of_Z (0x80 + x2)
                 :: byte_of_Z (0x80 + x3) :: r)
  = cons ((z - 0xF0) * 262144 + x1 * 4096 + x2 * 64 + x3) <$> utf8_decode r.
Proof.
  intros Hz H1 H2 H3 Hc. cbn [utf8_decode]. rewrite Z_of_byte_of_Z_small by lia.
  rewrite !continuation_of by done. cbn zeta.
  by range_cases.
Qed.

Lemma utf8_decode_encode_cp c b r :
  utf8_encode_cp c = Some b ->
  utf8_decode (b ++ r) = cons c <$> utf8_decode r.
Proof.
  unfold utf8_encode_cp.
  destruct (Z.ltb_spec c 0); [done|].
  destruct (Z.ltb_spec c 0x80).
  { intros [= <-]. cbn [app]. by apply utf8_decode_1. }
  destruct (Z.ltb_spec c 0x800).
  { intros [= <-]. cbn [app].
    rewrite utf8_decode_2 by (Z.div_mod_to_equations; lia).
    do 2 f_equal. Z.div_mod_to_equations. lia. }
  destruct (Z.ltb_spec c 0x10000).
  { destruct (is_surrogate c) eqn:Hs; [done|]. intros [= <-]. cbn [app].
    assert ((0xE0 + c / 4096 - 0xE0) * 4096 + (c / 64) mod 64 * 64 + c mod 64 = c)
      as Hc by (Z.div_mod_to_equations; lia).
    rewrite utf8_decode_3; rewrite ?Hc; try done; try (Z.div_mod_to_equations; lia). }
  destruct (Z.ltb_spec c 0x110000); [|done].
  intros [= <-]. cbn [app].
  assert ((0xF0 + c / 262144 - 0xF0) * 262144 + (c / 4096) mod 64 * 4096
          + (c / 64) mod 64 * 64 + c mod 64 = c)
    as Hc by (Z.div_mod_to_equations; lia).
  rewrite utf8_decode_4; rewrite ?Hc; try done; try (Z.div_mod_to_equations; lia).
Qed.

Lemma utf8_decode_encode s bs : utf8_encode s = Some bs -> utf8_decode bs = Some s.
Proof.
  revert bs. induction s as [|c s IH]; intros bs; cbn [utf8_encode].
  - by intros [= <-].
  - destruct (utf8_encode_cp c) as [b|] eqn:Ec; [|done].
    destruct (utf8_encode s) as [br|]; [|done]. intros [= <-].
    rewrite (utf8_decode_encode_cp c b br Ec), (IH br eq_refl). done.
Qed.

Lemma utf8_encode_scalars s :
  Forall unicode_scalar s -> exists bs, utf8_encode s = Some bs.
Proof.
  induction 1 as [|c s [Hc Hs] _ [br IH]]; [by exists []|].
  cbn [utf8_encode]. rewrite IH. unfold utf8_encode_cp. rewrite Hs.
  range_cases; eauto.
Qed.

(** ** The passthrough marshaller and the string entry *)

(** C9 (as amended): the passthrough marshaller decodes every byte string
    to itself and encodes every [bytes] value to itself; its [marshall] is
    [bytes(data)], which raises [TypeError] on a [str] and on a [float]. *)
Theorem passthrough_bytes :
  (forall b, unmarshall Passthrough b = Ok (VBytes b)) /\
  (forall b, marshall Passthrough (VBytes b) = Ok (VBytes b)) /\
  (forall s, marshall Passthrough (VStr s) = Raise TypeError) /\
  (forall f, marshall Passthrough (VFloat f) = Raise TypeError).
Proof. repeat split. Qed.

(** C9 (counterexample): encoding the string ["abc"] fails, and encoding
    the integer 3 yields three zero bytes. *)
Lemma passthrough_marshall_not_total :
  marshall Passthrough (VStr (str_lit "abc")) = Raise TypeError /\
  marshall Passthrough (VInt 3) = Ok (VBytes [x00; x00; x00]).
Proof. split; reflexivity. Qed.

Section StringEntry.
Context `{NumericText}.

(** C10 (as amended): the marshaller of code 25 returns a [bytes] value
    unchanged, and maps a [str] free of surrogate code points to its UTF-8
    encoding, which it decodes back to the same [str]. *)
Theorem utf8_entry_marshall entry u m :
  Table_2904_bytes_format !! 25 = Some entry ->
  BleakGATTPackMarshaller.init entry 0 u = Ok m ->
  (forall b, marshall (Pack m) (VBytes b) = Ok (VBytes b)) /\
  (forall s, Forall unicode_scalar s ->
     exists bs, utf8_encode s = Some bs /\
                marshall (Pack m) (VStr s) = Ok (VBytes bs) /\
                unmarshall (Pack m) bs = Ok (VStr s)).
Proof.
  rewrite Table_2904_at_25. intros [= <-] [= <-]. split; [done|].
  intros s Hs. destruct (utf8_encode_scalars s Hs) as [bs Hbs].
  exists bs. split; [done|]. cbn. rewrite Hbs. split; [done|].
  by rewrite (utf8_decode_encode s bs Hbs).
Qed.

End StringEntry.

(** C10 (counterexample): the [str] made of the lone surrogate U+D800 has
    no UTF-8 encoding, and [marshall] raises [UnicodeEncodeError] on it. *)
Lemma lone_surrogate_not_encoded :
  exists s : pystr,
    s = [0xD800] /\
    forall N : NumericText, exists entry m,
      Table_2904_bytes_format !! 25 = Some entry /\
      BleakGATTPackMarshaller.init entry 0 0 = Ok m /\
      marshall (Pack m) (VStr s) = Raise UnicodeEncodeError.
Proof.
  exists [0xD800]. split; [done|]. intros N.
  eexists _, _. split; [apply Table_2904_at_25|]. split; reflexivity.
Qed.

(** ** The theorems at concrete inputs *)

Lemma init_nonzero_exponent_witness :
  BleakGATTPackMarshaller.init
    (@py_int rejecting_text, @py_int rejecting_text, Some 4, Some "<I"%string) 2 0
  = Raise NameError /\
  @BleakGATTMarshaller.get_marshaller rejecting_text ∅ example_client
    (str_lit "2a19") (Some {| handle := 6 |})
  = IO [ReadDescriptor 6] (Raise NameError).
Proof.
  destruct (@init_nonzero_exponent rejecting_text) as (Hinit & _ & Hget).
  split.
  - apply (Hinit 8); [apply Table_2904_lookup; find_item | lia].
  - apply (Hget ∅ example_client (str_lit "2a19") {| handle := 6 |}
             [x08; x02; x00; x27; x01; x00; x00] 8
             (@py_int rejecting_text, @py_int rejecting_text, Some 4, Some "<I"%string)
             2 9984 1 0).
    + right. reflexivity.
    + reflexivity.
    + reflexivity.
    + apply Table_2904_lookup. find_item.
    + lia.
Defined.

Lemma fixed_width_length_witness :
  unmarshall (Pack (BleakGATTPackMarshaller.Build_t
                      (@py_int rejecting_text) (@py_int rejecting_text)
                      (Some 2) (Some "<H"%string) 0 0)) [x2c]
  = Raise AssertionError /\
  (exists out, VBytes [x2c; x01] = VBytes out /\ len out = 2) /\
  marshall (Pack (BleakGATTPackMarshaller.Build_t
                    (@py_int rejecting_text) (@py_int rejecting_text)
                    (Some 2) (Some "<B"%string) 0 0)) (VInt 5)
  = Raise AssertionError.
Proof.
  destruct (fixed_width_length (@py_int rejecting_text) (@py_int rejecting_text) 2
              (Some "<H"%string) 0 0) as (Hdec & Henc & _); [lia|].
  destruct (fixed_width_length (@py_int rejecting_text) (@py_int rejecting_text) 2
              (Some "<B"%string) 0 0) as (_ & _ & Hfault); [lia|].
  split; [|split].
  - apply Hdec. discriminate.
  - apply (Henc (VInt 300)). reflexivity.
  - apply (Hfault (VInt 5) (VInt 5) (VInt 5) [x05]); [reflexivity..|discriminate].
Defined.

Lemma unsupported_format_passthrough_witness :
  @BleakGATTMarshaller.get_marshaller rejecting_text ∅ example_client
    (str_lit "2a19") (Some {| handle := 5 |})
  = IO [ReadDescriptor 5; Warning (no_marshaller_found example_client (str_lit "2a19"))]
       (Ok Passthrough) /\
  @Table_2904_bytes_format rejecting_text !! 7 = None.
Proof.
  destruct (@unsupported_format_passthrough rejecting_text) as (Hget & _ & Habsent).
  assert (@Table_2904_bytes_format rejecting_text !! 7 = None) as H7
    by (apply Habsent; decide_list).
  split; [|exact H7].
  apply (Hget ∅ example_client (str_lit "2a19") {| handle := 5 |}
           [x07; x00; x00; x27; x01; x00; x00] 7 0 9984 1 0).
  - right. reflexivity.
  - reflexivity.
  - reflexivity.
  - exact H7.
Defined.

Lemma override_short_circuit_witness :
  @BleakGATTMarshaller.get_marshaller rejecting_text
    {[ str_lit "2a19" := fun _ => Ok Passthrough ]} example_client
    (str_lit "2a19") (Some {| handle := 5 |})
  = IO [] (Ok Passthrough).
Proof.
  apply (@override_short_circuit rejecting_text
           {[ str_lit "2a19" := fun _ => Ok Passthrough ]} example_client
           (str_lit "2a19") (Some {| handle := 5 |}) (fun _ => Ok Passthrough)).
  - discriminate.
  - apply lookup_singleton_eq.
Defined.

Lemma utf8_entry_marshall_witness :
  exists bs,
    utf8_encode (str_lit "hello") = Some bs /\
    marshall (Pack (BleakGATTPackMarshaller.Build_t str2bytes bytes2str None None 0 0))
      (VStr (str_lit "hello")) = Ok (VBytes bs) /\
    unmarshall (Pack (BleakGATTPackMarshaller.Build_t str2bytes bytes2str None None 0 0)) bs
    = Ok (VStr (str_lit "hello")).
Proof.
  destruct (@utf8_entry_marshall rejecting_text
              (str2bytes, bytes2str, None, None) 0
              (BleakGATTPackMarshaller.Build_t str2bytes bytes2str None None 0 0))
    as [_ Hstr].
  - apply Table_2904_lookup. find_item.
  - reflexivity.
  - apply Hstr. change (str_lit "hello") with [104; 101; 108; 108; 111].
    unfold unicode_scalar.
    repeat (apply Forall_cons; split; [split; [lia | reflexivity]|]).
    apply Forall_nil_2.
Defined.

(** ** Integers in range survive a round trip *)

Section IntegerRoundTrip.
Context `{NumericText}.

Lemma pack_int_in_range signed n z :
  (0 < n)%nat -> layout_range signed n z ->
  pack_int signed n (VInt z) = Ok (le_bytes n z).
Proof.
  intros Hn Hz. unfold pack_int, layout_range in *. cbn [py_index].
  destruct signed; by range_cases.
Qed.

(** X1: an integer entry of the registry, with exponent 0, encodes every
    integer in the range of its layout to as many bytes as its width, and
    decodes these bytes to the same integer. *)
Theorem integer_round_trip code c n u m z :
  Table_2904_bytes_format !! code = Some (integer_entry c n) ->
  c ∈ integer_codes -> code_size c = Some n ->
  BleakGATTPackMarshaller.init (integer_entry c n) 0 u = Ok m ->
  layout_range (code_signed c) n z ->
  exists bs, length bs = n /\
             marshall (Pack m) (VInt z) = Ok (VBytes bs) /\
             unmarshall (Pack m) bs = Ok (VInt z).
Proof.
  intros _ Hc Hn Hm Hz. pose proof (code_size_integer _ _ Hc Hn) as Hpos.
  pose proof (pack_int_in_range _ _ _ Hpos Hz) as Hpack.
  exists (le_bytes n z). split; [apply le_bytes_length|].
  cbn [marshall unmarshall]. rewrite (marshall_integer c n u m z) by done.
  rewrite Hpack. split; [done|].
  rewrite (unmarshall_integer c n u m) by (done || apply le_bytes_length).
  apply unpack_pack_int in Hpack; [|done]. cbn in Hpack. by injection Hpack as <-.
Qed.

End IntegerRoundTrip.

Lemma integer_round_trip_witness :
  exists bs, length bs = 2%nat /\
    marshall (Pack (BleakGATTPackMarshaller.Build_t
                      (@py_int rejecting_text) (@py_int rejecting_text)
                      (Some 2) (Some "<h"%string) 0 0)) (VInt (-5)) = Ok (VBytes bs) /\
    unmarshall (Pack (BleakGATTPackMarshaller.Build_t
                      (@py_int rejecting_text) (@py_int rejecting_text)
                      (Some 2) (Some "<h"%string) 0 0)) bs = Ok (VInt (-5)).
Proof.
  apply (@integer_round_trip rejecting_text 14 "h"%char 2 0).
  - apply Table_2904_lookup. find_item.
  - unfold integer_codes. decide_list.
  - reflexivity.
  - reflexivity.
  - cbn. lia.
Defined.

(** ** The scenarios of the specification *)

(** With exponent 0, code 6 maps the bytes 2C 01 to 300 and back,
    code 14 maps FB FF to -5 and back, and code 25 maps 68 65 6C 6C 6F to
    ["hello"] and back. *)
Example scenarios `{NumericText} :
  let codec f t n fmt := Pack (BleakGATTPackMarshaller.Build_t f t n fmt 0 0) in
  Table_2904_bytes_format !! 6 = Some (py_int, py_int, Some 2, Some "<H"%string) /\
  unmarshall (codec py_int py_int (Some 2) (Some "<H"%string)) [x2c; x01] = Ok (VInt 300) /\
  marshall (codec py_int py_int (Some 2) (Some "<H"%string)) (VInt 300)
  = Ok (VBytes [x2c; x01]) /\
  Table_2904_bytes_format !! 14 = Some (py_int, py_int, Some 2, Some "<h"%string) /\
  unmarshall (codec py_int py_int (Some 2) (Some "<h"%string)) [xfb; xff] = Ok (VInt (-5)) /\
  marshall (codec py_int py_int (Some 2) (Some "<h"%string)) (VInt (-5))
  = Ok (VBytes [xfb; xff]) /\
  Table_2904_bytes_format !! 25 = Some (str2bytes, bytes2str, None, None) /\
  unmarshall (codec str2bytes bytes2str None None) [x68; x65; x6c; x6c; x6f]
  = Ok (VStr (str_lit "hello")) /\
  marshall (codec str2bytes bytes2str None None) (VStr (str_lit "hello"))
  = Ok (VBytes [x68; x65; x6c; x6c; x6f]).
Proof.
  cbv zeta.
  repeat match goal with
         | |- _ /\ _ => split
         | |- _ !! _ = _ => apply Table_2904_lookup; find_item
         | |- _ => reflexivity
         end.
Qed.

(** ** More on the resolver and on the boolean entry *)

Section MoreResolver.
Context `{NumericText}.

(** X3: without an override and without a descriptor, resolution emits
    the warning and returns the passthrough marshaller, reading nothing. *)
Theorem no_format_information table client uuid :
  no_override table uuid ->
  BleakGATTMarshaller.get_marshaller table client uuid None
  = IO [Warning (no_marshaller_found client uuid)] (Ok Passthrough).
Proof.
  intros Hno. unfold BleakGATTMarshaller.get_marshaller.
  by rewrite get_marshaller_no_override.
Qed.

(** X4: without an override, an error of the read of the descriptor ends
    resolution with this error, after the one read and with no warning. *)
Theorem transport_failure table client uuid d e :
  no_override table uuid ->
  descriptor_value client (handle d) = Raise e ->
  BleakGATTMarshaller.get_marshaller table client uuid (Some d)
  = IO [ReadDescriptor (handle d)] (Raise e).
Proof.
  intros Hno Hread. unfold BleakGATTMarshaller.get_marshaller.
  rewrite get_marshaller_no_override by done.
  unfold read_gatt_descriptor, mbind, io_bind. cbn [outcome trace].
  by rewrite Hread.
Qed.

(** X5: without an override, a record that names a registered format and
    the exponent 0 resolves, after one read and with no warning, to the pack
    marshaller holding the entry of the format, the exponent and the unit. *)
Theorem registered_format table client uuid d data code f t n fmt u ns ds :
  no_override table uuid ->
  descriptor_value client (handle d) = Ok data ->
  struct_unpack "<BbHBH" data = Ok [VInt code; VInt 0; VInt u; VInt ns; VInt ds] ->
  Table_2904_bytes_format !! code = Some (f, t, n, fmt) ->
  BleakGATTMarshaller.get_marshaller table client uuid (Some d)
  = IO [ReadDescriptor (handle d)]
       (Ok (Pack (BleakGATTPackMarshaller.Build_t f t n fmt 0 u))).
Proof.
  intros Hno Hread Hrec Hl.
  by rewrite (get_marshaller_record _ _ _ _ _ _ _ _ _ _ Hno Hread Hrec), Hl.
Qed.

(** X6: the boolean entry, with exponent 0, encodes a value to the byte 01
    when it is true and to 00 otherwise, and decodes this byte to the truth
    value; so [True] and [False] survive a round trip. *)
Theorem boolean_round_trip f t fmt u m v :
  Table_2904_bytes_format !! 1 = Some (f, t, Some 1, fmt) ->
  BleakGATTPackMarshaller.init (f, t, Some 1, fmt) 0 u = Ok m ->
  marshall (Pack m) v = Ok (VBytes [byte_of_Z (Z_of_bool (py_truth v))]) /\
  unmarshall (Pack m) [byte_of_Z (Z_of_bool (py_truth v))] = Ok (VBool (py_truth v)).
Proof.
  rewrite Table_2904_at_1. intros [= <- <- <-] [= <-].
  split; [reflexivity|]. by destruct (py_truth v).
Qed.

End MoreResolver.

Lemma no_format_information_witness :
  @BleakGATTMarshaller.get_marshaller rejecting_text ∅ example_client (str_lit "2a19") None
  = IO [Warning (no_marshaller_found example_client (str_lit "2a19"))] (Ok Passthrough).
Proof.
  apply (@no_format_information rejecting_text ∅ example_client (str_lit "2a19")).
  right. reflexivity.
Defined.

Lemma transport_failure_witness :
  @BleakGATTMarshaller.get_marshaller rejecting_text ∅ example_client (str_lit "2a19")
    (Some {| handle := 9 |})
  = IO [ReadDescriptor 9] (Raise BleakError).
Proof.
  apply (@transport_failure rejecting_text ∅ example_client (str_lit "2a19")
           {| handle := 9 |} BleakError).
  - right. reflexivity.
  - reflexivity.
Defined.

Lemma registered_format_witness :
  @BleakGATTMarshaller.get_marshaller rejecting_text ∅
    {| address := []; descriptor_value := fun _ => Ok [x06; x00; x00; x27; x01; x00; x00] |}
    (str_lit "2a19") (Some {| handle := 3 |})
  = IO [ReadDescriptor 3]
       (Ok (Pack (BleakGATTPackMarshaller.Build_t
                    (@py_int rejecting_text) (@py_int rejecting_text)
                    (Some 2) (Some "<H"%string) 0 9984))).
Proof.
  apply (@registered_format rejecting_text ∅ _ (str_lit "2a19") {| handle := 3 |}
           [x06; x00; x00; x27; x01; x00; x00] 6 _ _ _ _ 9984 1 0).
  - right. reflexivity.
  - reflexivity.
  - reflexivity.
  - apply Table_2904_lookup. find_item.
Defined.

Lemma boolean_round_trip_witness :
  marshall (Pack (BleakGATTPackMarshaller.Build_t py_bool py_bool (Some 1)
                    (Some "<?"%string) 0 0)) (VInt 7)
  = Ok (VBytes [x01]) /\
  unmarshall (Pack (BleakGATTPackMarshaller.Build_t py_bool py_bool (Some 1)
                      (Some "<?"%string) 0 0)) [x01]
  = Ok (VBool true).
Proof.
  apply (@boolean_round_trip rejecting_text py_bool py_bool (Some "<?"%string) 0 _ (VInt 7)).
  - apply Table_2904_lookup. find_item.
  - reflexivity.
Defined.

(** ** The registry against [struct] *)

Lemma code_size_cases c n :
  code_size c = Some n ->
  c ∈ integer_codes \/ c = "?"%char \/ c = "f"%char \/ c = "d"%char.
Proof.
  intros Hn.
  destruct c as [[] [] [] [] [] [] [] []]; try discriminate Hn;
    first [ left; unfold integer_codes; decide_list | right; tauto ].
Qed.

Lemma pack_field_length c n v bs :
  code_size c = Some n -> pack_field c v = Ok bs -> length bs = n.
Proof.
  intros Hn. destruct (code_size_cases c n Hn) as [Hc|[->|[->| ->]]].
  - rewrite (pack_field_integer c n) by done. apply pack_int_length.
  - injection Hn as <-. by intros [= <-].
  - by apply pack_float_length; [left|].
  - by apply pack_float_length; [right|].
Qed.

Section RegistryLayout.
Context `{NumericText}.

Lemma registry_fixed_format code f t n fmt :
  Table_2904_bytes_format !! code = Some (f, t, Some n, fmt) ->
  exists c k, fmt = Some (single_format c) /\ code_size c = Some k /\ n = Z.of_nat k.
Proof.
  intros Hl. apply Table_2904_lookup in Hl. unfold Table_2904_items in Hl.
  repeat (apply elem_of_cons in Hl as [[= -> -> -> -> ->]|Hl];
    [lazymatch goal with
     | |- exists c k, Some (String _ (String ?ch _)) = _ /\ _ =>
         exists ch; eexists; split; [reflexivity|split; reflexivity]
     end|]).
  repeat (apply elem_of_cons in Hl as [[=]|Hl]).
  by apply elem_of_nil in Hl.
Qed.

Lemma pack_registry_length code f t n fmt data out :
  Table_2904_bytes_format !! code = Some (f, t, Some n, fmt) ->
  BleakGATTPackMarshaller.pack fmt data = Ok out ->
  len out = n.
Proof.
  intros Hl. destruct (registry_fixed_format _ _ _ _ _ Hl) as (c & k & -> & Hk & ->).
  unfold BleakGATTPackMarshaller.pack. rewrite (struct_pack_single c k) by done.
  destruct (pack_field c data) as [b|] eqn:E; [|done]. cbn. intros [= <-].
  rewrite app_nil_r. unfold len. f_equal. by eapply pack_field_length.
Qed.

(** X7: for every fixed-width entry of the registry, whatever [struct.pack]
    returns under the entry's format has exactly the entry's width: the
    width and the format of each entry agree, so the assertion at the end
    of [marshall] holds whenever packing succeeds. *)
Theorem registry_width_is_packed_size code f t n fmt data out :
  Table_2904_bytes_format !! code = Some (f, t, Some n, fmt) ->
  BleakGATTPackMarshaller.pack fmt data = Ok out ->
  len out = n.
Proof. apply pack_registry_length. Qed.

(** What [marshall] returns on a fixed-width entry is a byte string of the
    width of the entry. *)
Lemma marshall_fixed_result code f t n fmt e u v r :
  Table_2904_bytes_format !! code = Some (f, t, Some n, fmt) ->
  BleakGATTPackMarshaller.marshall (BleakGATTPackMarshaller.Build_t f t (Some n) fmt e u) v
  = Ok r ->
  exists out, r = VBytes out /\ len out = n.
Proof.
  intros Hl. pose proof (registry_width _ _ _ Hl eq_refl) as Hn.
  unfold BleakGATTPackMarshaller.marshall.
  cbn [BleakGATTPackMarshaller.length BleakGATTPackMarshaller.exponent
       BleakGATTPackMarshaller.frompython BleakGATTPackMarshaller.format py_not].
  destruct (Z.eqb_spec n 0); [lia|].
  destruct (if 0 <? e then _ else _) as [data|]; [|done]. cbn [mbind result_bind].
  destruct (f data) as [data'|]; [|done]. cbn [mbind result_bind].
  destruct (BleakGATTPackMarshaller.pack fmt data') as [out|]; [|done].
  cbn [mbind result_bind].
  destruct (decide (Some (len out) = Some n)) as [Heq|]; [|done].
  intros [= <-]. exists out. split; [done|]. by injection Heq.
Qed.

(** X8: with exponent 0, decoding a byte string of the entry's width never
    fails, for every fixed-width entry of the registry. *)
Theorem unmarshall_fixed_total code f t n fmt u m b :
  Table_2904_bytes_format !! code = Some (f, t, Some n, fmt) ->
  BleakGATTPackMarshaller.init (f, t, Some n, fmt) 0 u = Ok m ->
  len b = n ->
  exists v, unmarshall (Pack m) b = Ok v.
Proof.
  intros Hl Hm Hlen. pose proof (registry_width _ _ _ Hl eq_refl) as Hn.
  destruct (registry_fixed_format _ _ _ _ _ Hl) as (c & k & -> & Hk & ->).
  injection Hm as <-. unfold len in Hlen. apply Nat2Z.inj in Hlen.
  cbn [unmarshall]. unfold BleakGATTPackMarshaller.unmarshall.
  cbn [BleakGATTPackMarshaller.length BleakGATTPackMarshaller.format
       BleakGATTPackMarshaller.topython BleakGATTPackMarshaller.exponent py_not].
  destruct (Z.eqb_spec (Z.of_nat k) 0); [lia|].
  unfold len. rewrite Hlen, decide_True by done.
  unfold BleakGATTPackMarshaller.unpack.
  rewrite (struct_unpack_single c k) by done. cbn [mbind result_bind].
  apply Table_2904_lookup in Hl. unfold Table_2904_items in Hl.
  repeat (apply elem_of_cons in Hl as [[= -> -> -> Hk' [= ->]]|Hl];
    [eexists; reflexivity|]).
  repeat (apply elem_of_cons in Hl as [[=]|Hl]).
  by apply elem_of_nil in Hl.
Qed.

End RegistryLayout.

(** ** Bounds of the integer entries *)

Lemma unpack_int_range signed bs :
  (0 < length bs)%nat -> layout_range signed (length bs) (unpack_int signed bs).
Proof.
  intros Hn. unfold layout_range, unpack_int.
  pose proof (le_int_range bs) as Hr. rewrite pow_256_2 in Hr.
  pose proof (half_range _ Hn) as Hh.
  destruct signed; cbn [andb]; [|lia].
  destruct (Z.leb_spec (2 ^ (8 * Z.of_nat (length bs) - 1)) (le_int bs)); lia.
Qed.

Lemma pack_int_out_of_range signed n z :
  ~ layout_range signed n z -> pack_int signed n (VInt z) = Raise StructError.
Proof.
  unfold layout_range, pack_int. cbn [py_index]. intros Hz.
  destruct signed; destruct (_ && _) eqn:E; try done;
    apply andb_true_iff in E as [?%Z.leb_le ?%Z.ltb_lt]; lia.
Qed.

Section IntegerBounds.
Context `{NumericText}.

(** X9: an integer entry of the registry, with exponent 0, refuses every
    integer outside the range of its layout with [struct.error]; no value is
    wrapped or truncated to fit. *)
Theorem integer_out_of_range code c n u m z :
  Table_2904_bytes_format !! code = Some (integer_entry c n) ->
  c ∈ integer_codes -> code_size c = Some n ->
  BleakGATTPackMarshaller.init (integer_entry c n) 0 u = Ok m ->
  ~ layout_range (code_signed c) n z ->
  marshall (Pack m) (VInt z) = Raise StructError.
Proof.
  intros _ Hc Hn Hm Hz. cbn [marshall].
  rewrite (marshall_integer c n u m z) by done.
  by rewrite pack_int_out_of_range.
Qed.

(** X10: an integer entry of the registry, with exponent 0, decodes every
    byte string of its width to an integer in the range of its layout. *)
Theorem unmarshall_integer_in_range code c n u m bs :
  Table_2904_bytes_format !! code = Some (integer_entry c n) ->
  c ∈ integer_codes -> code_size c = Some n ->
  BleakGATTPackMarshaller.init (integer_entry c n) 0 u = Ok m ->
  length bs = n ->
  exists z, unmarshall (Pack m) bs = Ok (VInt z) /\ layout_range (code_signed c) n z.
Proof.
  intros _ Hc Hn Hm Hlen. pose proof (code_size_integer _ _ Hc Hn) as Hpos.
  exists (unpack_int (code_signed c) bs). cbn [unmarshall].
  rewrite (unmarshall_integer c n u m bs) by done. split; [done|].
  subst n. by apply unpack_int_range.
Qed.

(** X11: on an instance of an integer entry whose exponent [e] is
    negative, [marshall] scales an integer exactly: it packs [z * 10 ** -e],
    with no floating-point step. *)
Theorem marshall_negative_exponent c n e u z :
  c ∈ integer_codes -> code_size c = Some n -> e < 0 ->
  BleakGATTPackMarshaller.marshall
    (BleakGATTPackMarshaller.Build_t py_int py_int (Some (Z.of_nat n))
       (Some (single_format c)) e u) (VInt z)
  = (bs ← pack_int (code_signed c) n (VInt (z * 10 ^ (- e))); Ok (VBytes bs)).
Proof.
  intros Hc Hn He. pose proof (code_size_integer _ _ Hc Hn) as Hpos.
  unfold BleakGATTPackMarshaller.marshall. cbn [BleakGATTPackMarshaller.length
    BleakGATTPackMarshaller.format BleakGATTPackMarshaller.frompython
    BleakGATTPackMarshaller.exponent py_not].
  destruct (Z.eqb_spec (Z.of_nat n) 0); [lia|].
  destruct (Z.ltb_spec 0 e); [lia|]. destruct (Z.ltb_spec e 0); [|lia].
  cbn -[struct_pack pack_int Z.pow Z.mul].
  rewrite (struct_pack_single c n) by done.
  rewrite (pack_field_integer c n) by done.
  destruct (pack_int (code_signed c) n (VInt (z * 10 ^ (- e)))) as [bs|] eqn:E; [|done].
  cbn. rewrite app_nil_r. apply pack_int_length in E.
  unfold len. rewrite E. by rewrite decide_True.
Qed.

End IntegerBounds.

Lemma integer_out_of_range_witness :
  marshall (Pack (BleakGATTPackMarshaller.Build_t
                    (@py_int rejecting_text) (@py_int rejecting_text)
                    (Some 1) (Some "<B"%string) 0 0)) (VInt 256)
  = Raise StructError.
Proof.
  apply (@integer_out_of_range rejecting_text 4 "B"%char 1 0).
  - apply Table_2904_lookup. find_item.
  - unfold integer_codes. decide_list.
  - reflexivity.
  - reflexivity.
  - cbn. lia.
Defined.

Lemma unmarshall_integer_in_range_witness :
  exists z,
    unmarshall (Pack (BleakGATTPackMarshaller.Build_t
                        (@py_int rejecting_text) (@py_int rejecting_text)
                        (Some 1) (Some "<b"%string) 0 0)) [xff] = Ok (VInt z) /\
    layout_range true 1 z.
Proof.
  apply (@unmarshall_integer_in_range rejecting_text 12 "b"%char 1 0).
  - apply Table_2904_lookup. find_item.
  - unfold integer_codes. decide_list.
  - reflexivity.
  - reflexivity.
  - reflexivity.
Defined.

Lemma marshall_negative_exponent_witness :
  BleakGATTPackMarshaller.marshall
    (BleakGATTPackMarshaller.Build_t (@py_int rejecting_text) (@py_int rejecting_text)
       (Some (Z.of_nat 4)) (Some (single_format "I"%char)) (-2) 0) (VInt 12)
  = (bs ← pack_int (code_signed "I"%char) 4 (VInt (12 * 10 ^ (- -2))); Ok (VBytes bs)).
Proof.
  apply (@marshall_negative_exponent rejecting_text "I"%char 4 (-2) 0 12).
  - unfold integer_codes. decide_list.
  - reflexivity.
  - lia.
Defined.

(** ** Decoding then encoding UTF-8 *)

Lemma continuation_inv b c :
  continuation b = Some c -> 0 <= c < 64 /\ byte_of_Z (0x80 + c) = b.
Proof.
  unfold continuation.
  destruct (Z.leb_spec 0x80 (Z_of_byte b)); [|done].
  destruct (Z.ltb_spec (Z_of_byte b) 0xC0); [|done].
  cbn. intros [= <-]. split; [lia|].
  replace (0x80 + (Z_of_byte b - 0x80)) with (Z_of_byte b) by lia.
  apply byte_of_Z_of_byte.
Qed.

Lemma not_surrogate_below c : c < 0xD800 -> is_surrogate c = false.
Proof. intros Hc. unfold is_surrogate. by destruct (Z.leb_spec 0xD800 c); [lia|]. Qed.

Lemma utf8_encode_cp_1 z :
  0 <= z < 0x80 -> utf8_encode_cp z = Some [byte_of_Z z].
Proof. intros Hz. unfold utf8_encode_cp. by range_cases. Qed.

Lemma utf8_encode_cp_2 z c1 :
  0xC2 <= z < 0xE0 -> 0 <= c1 < 64 ->
  utf8_encode_cp ((z - 0xC0) * 64 + c1) = Some [byte_of_Z z; byte_of_Z (0x80 + c1)].
Proof.
  intros Hz H1. unfold utf8_encode_cp. range_cases.
  repeat f_equal; Z.div_mod_to_equations; lia.
Qed.

Lemma utf8_encode_cp_3 z c1 c2 :
  0xE0 <= z < 0xF0 -> 0 <= c1 < 64 -> 0 <= c2 < 64 ->
  0x800 <= (z - 0xE0) * 4096 + c1 * 64 + c2 ->
  is_surrogate ((z - 0xE0) * 4096 + c1 * 64 + c2) = false ->
  utf8_encode_cp ((z - 0xE0) * 4096 + c1 * 64 + c2)
  = Some [byte_of_Z z; byte_of_Z (0x80 + c1); byte_of_Z (0x80 + c2)].
Proof.
  intros Hz H1 H2 Hc Hs. unfold utf8_encode_cp. rewrite Hs. range_cases.
  repeat f_equal; Z.div_mod_to_equations; lia.
Qed.

Lemma utf8_encode_cp_4 z c1 c2 c3 :
  0xF0 <= z < 0xF5 -> 0 <= c1 < 64 -> 0 <= c2 < 64 -> 0 <= c3 < 64 ->
  0x10000 <= (z - 0xF0) * 262144 + c1 * 4096 + c2 * 64 + c3 < 0x110000 ->
  utf8_encode_cp ((z - 0xF0) * 262144 + c1 * 4096 + c2 * 64 + c3)
  = Some [byte_of_Z z; byte_of_Z (0x80 + c1); byte_of_Z (0x80 + c2);
          byte_of_Z (0x80 + c3)].
Proof.
  intros Hz H1 H2 H3 Hc. unfold utf8_encode_cp. range_cases.
  repeat f_equal; Z.div_mod_to_equations; lia.
Qed.

Lemma utf8_encode_cons c b s bs :
  utf8_encode_cp c = Some b -> utf8_encode s = Some bs ->
  utf8_encode (c :: s) = Some (b ++ bs).
Proof. intros Hc Hs. cbn [utf8_encode]. by rewrite Hc, Hs. Qed.

Lemma utf8_encode_decode_bounded n bs s :
  (length bs <= n)%nat ->
  utf8_decode bs = Some s ->
  utf8_encode s = Some bs /\ Forall unicode_scalar s.
Proof.
  revert bs s. induction n as [|n IH]; intros bs s Hlen.
  { destruct bs; [|cbn in Hlen; lia]. cbn. by intros [= <-]. }
  destruct bs as [|b0 r0]; [cbn; by intros [= <-]|].
  cbn [utf8_decode]. cbn [length] in Hlen.
  pose proof (Z_of_byte_range b0) as Hb0.
  pose proof (byte_of_Z_of_byte b0) as Eb0.
  set (z0 := Z_of_byte b0) in *.
  destruct (Z.ltb_spec z0 0x80).
  { destruct (utf8_decode r0) as [s'|] eqn:E; [|done]. cbn. intros [= <-].
    destruct (IH r0 s' ltac:(lia) E) as [He Hs]. split.
    - rewrite (utf8_encode_cons z0 [byte_of_Z z0] s' r0); [by rewrite Eb0| |done].
      apply utf8_encode_cp_1; first [lia | done].
    - apply Forall_cons. split; [|done]. split; [lia|]. apply not_surrogate_below. lia. }
  destruct (Z.ltb_spec z0 0xC2); [done|].
  destruct (Z.ltb_spec z0 0xE0).
  { destruct r0 as [|b1 r1]; [done|].
    destruct (continuation b1) as [c1|] eqn:E1; [|done].
    apply continuation_inv in E1 as [Hc1 Eb1].
    destruct (utf8_decode r1) as [s'|] eqn:E; [|done]. cbn. intros [= <-].
    cbn [length] in Hlen.
    destruct (IH r1 s' ltac:(lia) E) as [He Hs]. split.
    - rewrite (utf8_encode_cons _ [byte_of_Z z0; byte_of_Z (0x80 + c1)] s' r1);
        [by rewrite Eb0, Eb1| |done].
      apply utf8_encode_cp_2; first [lia | done].
    - apply Forall_cons. split; [|done]. split; [lia|]. apply not_surrogate_below. lia. }
  destruct (Z.ltb_spec z0 0xF0).
  { destruct r0 as [|b1 [|b2 r2]]; [done|done|].
    destruct (continuation b1) as [c1|] eqn:E1; [|done].
    destruct (continuation b2) as [c2|] eqn:E2; [|done].
    apply continuation_inv in E1 as [Hc1 Eb1]. apply continuation_inv in E2 as [Hc2 Eb2].
    cbn zeta.
    destruct (Z.ltb_spec ((z0 - 0xE0) * 4096 + c1 * 64 + c2) 0x800); [done|].
    destruct (is_surrogate ((z0 - 0xE0) * 4096 + c1 * 64 + c2)) eqn:Hsur; [done|].
    cbn [orb].
    destruct (utf8_decode r2) as [s'|] eqn:E; [|done]. cbn. intros [= <-].
    cbn [length] in Hlen.
    destruct (IH r2 s' ltac:(lia) E) as [He Hs]. split.
    - rewrite (utf8_encode_cons _ [byte_of_Z z0; byte_of_Z (0x80 + c1);
                                   byte_of_Z (0x80 + c2)] s' r2);
        [by rewrite Eb0, Eb1, Eb2| |done].
      apply utf8_encode_cp_3; first [lia | done].
    - apply Forall_cons. split; [|done]. split; [lia|done]. }
  destruct (Z.ltb_spec z0 0xF5); [|done].
  destruct r0 as [|b1 [|b2 [|b3 r3]]]; [done|done|done|].
  destruct (continuation b1) as [c1|] eqn:E1; [|done].
  destruct (continuation b2) as [c2|] eqn:E2; [|done].
  destruct (continuation b3) as [c3|] eqn:E3; [|done].
  apply continuation_inv in E1 as [Hc1 Eb1]. apply continuation_inv in E2 as [Hc2 Eb2].
  apply continuation_inv in E3 as [Hc3 Eb3].
  cbn zeta.
  destruct (Z.ltb_spec ((z0 - 0xF0) * 262144 + c1 * 4096 + c2 * 64 + c3) 0x10000); [done|].
  destruct (Z.leb_spec 0x110000 ((z0 - 0xF0) * 262144 + c1 * 4096 + c2 * 64 + c3)); [done|].
  cbn [orb].
  destruct (utf8_decode r3) as [s'|] eqn:E; [|done]. cbn. intros [= <-].
  cbn [length] in Hlen.
  destruct (IH r3 s' ltac:(lia) E) as [He Hs]. split.
  - rewrite (utf8_encode_cons _ [byte_of_Z z0; byte_of_Z (0x80 + c1);
                                 byte_of_Z (0x80 + c2); byte_of_Z (0x80 + c3)] s' r3);
      [by rewrite Eb0, Eb1, Eb2, Eb3| |done].
    apply utf8_encode_cp_4; first [lia | done].
  - apply Forall_cons. split; [|done]. split; [lia|].
    unfold is_surrogate.
    by destruct (Z.leb_spec ((z0 - 0xF0) * 262144 + c1 * 4096 + c2 * 64 + c3) 0xDFFF);
      [lia|rewrite andb_false_r].
Qed.

Lemma utf8_encode_decode bs s :
  utf8_decode bs = Some s -> utf8_encode s = Some bs /\ Forall unicode_scalar s.
Proof. by apply (utf8_encode_decode_bounded (length bs)). Qed.

(** ** The variable-length entries *)

Section VariableLength.
Context `{NumericText}.

(** X13: the marshaller of code 25 decodes a byte string either to a [str]
    free of surrogate code points, which it encodes back to the same byte
    string, or not at all, raising [UnicodeDecodeError]. *)
Theorem utf8_entry_unmarshall entry u m bs :
  Table_2904_bytes_format !! 25 = Some entry ->
  BleakGATTPackMarshaller.init entry 0 u = Ok m ->
  (exists s, unmarshall (Pack m) bs = Ok (VStr s) /\
             Forall unicode_scalar s /\
             marshall (Pack m) (VStr s) = Ok (VBytes bs)) \/
  unmarshall (Pack m) bs = Raise UnicodeDecodeError.
Proof.
  rewrite Table_2904_at_25. intros [= <-] [= <-]. cbn.
  destruct (utf8_decode bs) as [s|] eqn:E; [left|by right].
  destruct (utf8_encode_decode bs s E) as [He Hs].
  exists s. by rewrite He.
Qed.

(** X14: the marshaller of the opaque code 27 behaves as the passthrough
    marshaller does, on every value to encode and on every byte string to
    decode. *)
Theorem opaque_entry_is_passthrough entry u m :
  Table_2904_bytes_format !! 27 = Some entry ->
  BleakGATTPackMarshaller.init entry 0 u = Ok m ->
  (forall v, marshall (Pack m) v = marshall Passthrough v) /\
  (forall b, unmarshall (Pack m) b = unmarshall Passthrough b).
Proof. rewrite Table_2904_at_27. intros [= <-] [= <-]. by split. Qed.

End VariableLength.

Lemma utf8_entry_unmarshall_witness :
  (exists s,
     unmarshall (Pack (BleakGATTPackMarshaller.Build_t str2bytes bytes2str None None 0 0))
       [xc3; xa9] = Ok (VStr s) /\
     Forall unicode_scalar s /\
     marshall (Pack (BleakGATTPackMarshaller.Build_t str2bytes bytes2str None None 0 0))
       (VStr s) = Ok (VBytes [xc3; xa9])) \/
  unmarshall (Pack (BleakGATTPackMarshaller.Build_t str2bytes bytes2str None None 0 0))
    [xc3; xa9] = Raise UnicodeDecodeError.
Proof.
  apply (@utf8_entry_unmarshall rejecting_text (str2bytes, bytes2str, None, None) 0).
  - apply Table_2904_lookup. find_item.
  - reflexivity.
Defined.

Lemma opaque_entry_is_passthrough_witness :
  (forall v, marshall (Pack (BleakGATTPackMarshaller.Build_t py_bytes py_bytes None None 0 0)) v
             = marshall Passthrough v) /\
  (forall b, unmarshall (Pack (BleakGATTPackMarshaller.Build_t py_bytes py_bytes None None 0 0)) b
             = unmarshall Passthrough b).
Proof.
  apply (@opaque_entry_is_passthrough rejecting_text (py_bytes, py_bytes, None, None) 0).
  - apply Table_2904_lookup. find_item.
  - reflexivity.
Defined.

(** ** What the resolver does and never does *)

Section ResolverEvents.
Context `{NumericText}.

Lemma presentation_record_cases data :
  (length data = 7%nat /\
   exists code e u ns ds,
     struct_unpack "<BbHBH" data = Ok [VInt code; VInt e; VInt u; VInt ns; VInt ds]) \/
  (length data <> 7%nat /\ struct_unpack "<BbHBH" data = Raise StructError).
Proof.
  unfold struct_unpack. cbn.
  destruct (Nat.eqb_spec (length data) 7); [left|by right].
  split; [done|]. by eexists _, _, _, _, _.
Qed.

(** X15: without an override, a descriptor whose value is not seven bytes
    long ends resolution with [struct.error], after the read and with no
    warning; the passthrough marshaller is not returned for it. *)
Theorem bad_record_length table client uuid d data :
  no_override table uuid ->
  descriptor_value client (handle d) = Ok data ->
  length data <> 7%nat ->
  BleakGATTMarshaller.get_marshaller table client uuid (Some d)
  = IO [ReadDescriptor (handle d)] (Raise StructError).
Proof.
  intros Hno Hread Hlen. unfold BleakGATTMarshaller.get_marshaller.
  rewrite get_marshaller_no_override by done.
  unfold read_gatt_descriptor, mbind, io_bind, lift. cbn [outcome trace].
  rewrite Hread. cbn [outcome trace].
  destruct (presentation_record_cases data) as [[? _]|[_ ->]]; done.
Qed.

(** X16: when no override applies, the override table plays no part:
    resolution gives what it gives with an empty table.  An empty identifier
    is such a case even when the table has an entry under it. *)
Theorem overrides_unused table client uuid descr_2904 :
  no_override table uuid ->
  BleakGATTMarshaller.get_marshaller table client uuid descr_2904
  = BleakGATTMarshaller.get_marshaller ∅ client uuid descr_2904.
Proof.
  intros Hno. unfold BleakGATTMarshaller.get_marshaller.
  rewrite (get_marshaller_no_override table) by done.
  rewrite (get_marshaller_no_override ∅) by (right; apply lookup_empty).
  done.
Qed.

(** X17: every resolution performs at most one read, of the descriptor it
    was given, and emits at most one warning: it either does nothing on the
    transport (an override), or reads the descriptor once, or reads it once
    and then warns and returns the passthrough marshaller, or, given no
    descriptor, only warns and returns the passthrough marshaller. *)
Theorem resolver_events table client uuid descr_2904 :
  let r := BleakGATTMarshaller.get_marshaller table client uuid descr_2904 in
  trace r = [] \/
  (exists d, descr_2904 = Some d /\ trace r = [ReadDescriptor (handle d)]) \/
  (exists d, descr_2904 = Some d /\
     r = IO [ReadDescriptor (handle d); Warning (no_marshaller_found client uuid)]
            (Ok Passthrough)) \/
  (descr_2904 = None /\
     r = IO [Warning (no_marshaller_found client uuid)] (Ok Passthrough)).
Proof.
  cbv zeta. unfold BleakGATTMarshaller.get_marshaller.
  destruct (if py_truth (VStr uuid) then table !! uuid else None) as [factory|];
    [by left|].
  destruct descr_2904 as [d|]; [|by right; right; right].
  right. unfold read_gatt_descriptor, mbind, io_bind, lift. cbn [outcome trace].
  destruct (descriptor_value client (handle d)) as [data|]; [|left; eauto].
  cbn [outcome trace].
  destruct (presentation_record_cases data)
    as [[_ (code & e & u & ns & ds & ->)]|[_ ->]]; [|left; eauto].
  cbn [outcome trace].
  destruct (Table_2904_bytes_format !! code) as [entry|]; cbn [outcome trace];
    [|right; left; eauto].
  destruct (BleakGATTPackMarshaller.init entry e u); left; eauto.
Qed.

(** X18: without an override, a pack marshaller that resolution returns
    holds exponent 0 and the four fields of an entry of the registry, and a
    descriptor was supplied. *)
Theorem resolved_pack_marshaller table client uuid descr_2904 m :
  no_override table uuid ->
  outcome (BleakGATTMarshaller.get_marshaller table client uuid descr_2904) = Ok (Pack m) ->
  BleakGATTPackMarshaller.exponent m = 0 /\
  descr_2904 <> None /\
  exists code,
    Table_2904_bytes_format !! code
    = Some (BleakGATTPackMarshaller.frompython m, BleakGATTPackMarshaller.topython m,
            BleakGATTPackMarshaller.length m, BleakGATTPackMarshaller.format m).
Proof.
  intros Hno. unfold BleakGATTMarshaller.get_marshaller.
  rewrite get_marshaller_no_override by done.
  destruct descr_2904 as [d|]; [|done].
  unfold read_gatt_descriptor, mbind, io_bind, lift. cbn [outcome trace].
  destruct (descriptor_value client (handle d)) as [data|]; [|done].
  cbn [outcome trace].
  destruct (presentation_record_cases data)
    as [[_ (code & e & u & ns & ds & ->)]|[_ ->]]; [|done].
  cbn [outcome trace].
  destruct (Table_2904_bytes_format !! code) as [[[[f t] l] fmt]|] eqn:Hl;
    cbn [outcome trace]; [|done].
  unfold BleakGATTPackMarshaller.init.
  destruct (Z.eqb_spec e 0) as [->|]; cbn; [|done].
  intros [= <-]. cbn. split; [done|]. split; [done|]. by exists code.
Qed.

End ResolverEvents.

Lemma bad_record_length_witness :
  @BleakGATTMarshaller.get_marshaller rejecting_text ∅
    {| address := []; descriptor_value := fun _ => Ok [x06; x00] |}
    (str_lit "2a19") (Some {| handle := 3 |})
  = IO [ReadDescriptor 3] (Raise StructError).
Proof.
  apply (@bad_record_length rejecting_text ∅ _ (str_lit "2a19") {| handle := 3 |}
           [x06; x00]).
  - right. reflexivity.
  - reflexivity.
  - discriminate.
Defined.

Lemma overrides_unused_witness :
  @BleakGATTMarshaller.get_marshaller rejecting_text
    {[ [] := fun _ => Ok Passthrough ]} example_client [] None
  = @BleakGATTMarshaller.get_marshaller rejecting_text ∅ example_client [] None.
Proof.
  apply (@overrides_unused rejecting_text
           {[ [] := fun _ => Ok Passthrough ]} example_client [] None).
  left. reflexivity.
Defined.

Lemma resolved_pack_marshaller_witness :
  BleakGATTPackMarshaller.exponent
    (BleakGATTPackMarshaller.Build_t (@py_int rejecting_text) (@py_int rejecting_text)
       (Some 2) (Some "<H"%string) 0 9984) = 0 /\
  Some {| handle := 3 |} <> None /\
  exists code,
    @Table_2904_bytes_format rejecting_text !! code
    = Some (@py_int rejecting_text, @py_int rejecting_text, Some 2, Some "<H"%string).
Proof.
  apply (@resolved_pack_marshaller rejecting_text ∅
           {| address := [];
              descriptor_value := fun _ => Ok [x06; x00; x00; x27; x01; x00; x00] |}
           (str_lit "2a19") (Some {| handle := 3 |})
           (BleakGATTPackMarshaller.Build_t (@py_int rejecting_text) (@py_int rejecting_text)
              (Some 2) (Some "<H"%string) 0 9984)).
  - right. reflexivity.
  - reflexivity.
Defined.

(** ** The typed client *)

Lemma filter_touches_resolve (l : list event) :
  List.filter touches_characteristic (Resolve <$> l) = [].
Proof. induction l as [|e l IH]; [done|]. by cbn. Qed.

Section TypedClient.
Context `{NumericText}.

Lemma typed_get_marshaller_characteristic table self char :
  BleakTypedClient.get_marshaller table self (Characteristic char)
  = resolve (BleakGATTMarshaller.get_marshaller table (BleakTypedClient.base self)
               (BleakGATTCharacteristic.uuid char)
               (BleakGATTCharacteristic.get_descriptor char descr_2904_uuid)).
Proof.
  unfold BleakTypedClient.get_marshaller, mbind, gatt_bind, mret, gatt_ret, resolve.
  cbn [gatt_outcome gatt_trace app]. reflexivity.
Qed.

Lemma typed_get_marshaller_identifier table self key :
  BleakTypedClient.get_marshaller table self (Identifier key)
  = match BleakTypedClient.services self with
    | Ok coll =>
        match coll key with
        | Some char =>
            GATT (GetServices
                    :: gatt_trace (BleakTypedClient.get_marshaller table self
                                     (Characteristic char)))
                 (gatt_outcome (BleakTypedClient.get_marshaller table self
                                  (Characteristic char)))
        | None => GATT [GetServices] (Raise BleakError)
        end
    | Raise e => GATT [GetServices] (Raise e)
    end.
Proof.
  unfold BleakTypedClient.get_marshaller, BleakTypedClient.get_services,
    mbind, gatt_bind, mret, gatt_ret, gatt_lift, resolve.
  cbn [gatt_outcome gatt_trace].
  destruct (BleakTypedClient.services self) as [coll|]; [|done].
  cbn [gatt_outcome gatt_trace]. destruct (coll key); reflexivity.
Qed.

Lemma typed_get_marshaller_touches table self spec :
  List.filter touches_characteristic
    (gatt_trace (BleakTypedClient.get_marshaller table self spec)) = [].
Proof.
  destruct spec as [char|key].
  - rewrite typed_get_marshaller_characteristic. apply filter_touches_resolve.
  - rewrite typed_get_marshaller_identifier.
    destruct (BleakTypedClient.services self) as [coll|]; [|done].
    destruct (coll key); [|done]. cbn [gatt_trace List.filter touches_characteristic].
    rewrite typed_get_marshaller_characteristic. apply filter_touches_resolve.
Qed.

(** X19: a typed read reads the characteristic exactly once, under the
    specifier it was given, when the marshaller is resolved, and not at all
    when resolution fails; it never writes. *)
Theorem typed_read_events table self spec :
  List.filter touches_characteristic
    (gatt_trace (BleakTypedClient.read_gatt_char_typed table self spec))
  = match gatt_outcome (BleakTypedClient.get_marshaller table self spec) with
    | Ok _ => [ReadChar spec]
    | Raise _ => []
    end.
Proof.
  unfold BleakTypedClient.read_gatt_char_typed, mbind, gatt_bind.
  pose proof (typed_get_marshaller_touches table self spec) as Hno.
  destruct (gatt_outcome (BleakTypedClient.get_marshaller table self spec)) as [m|];
    cbn [gatt_trace gatt_outcome BleakTypedClient.read_gatt_char]; [|done].
  destruct (BleakTypedClient.char_value self spec);
    cbn [gatt_trace gatt_outcome gatt_lift]; rewrite List.filter_app, Hno; reflexivity.
Qed.

(** X20: a typed write writes exactly once, the encoding of the value,
    under the specifier and the response flag it was given, when the
    marshaller is resolved and encodes the value; when resolution or
    encoding fails it writes nothing.  It never reads the characteristic. *)
Theorem typed_write_events table self spec data response :
  List.filter touches_characteristic
    (gatt_trace (BleakTypedClient.write_gatt_char_typed table self spec data response))
  = match gatt_outcome (BleakTypedClient.get_marshaller table self spec) with
    | Ok m =>
        match marshall m data with
        | Ok data_bytes => [WriteChar spec data_bytes response]
        | Raise _ => []
        end
    | Raise _ => []
    end.
Proof.
  unfold BleakTypedClient.write_gatt_char_typed, mbind, gatt_bind.
  pose proof (typed_get_marshaller_touches table self spec) as Hno.
  destruct (gatt_outcome (BleakTypedClient.get_marshaller table self spec)) as [m|];
    cbn [gatt_trace gatt_outcome gatt_lift]; [|done].
  destruct (marshall m data) as [data_bytes|];
    cbn [gatt_trace gatt_outcome BleakTypedClient.write_gatt_char app];
    rewrite ?List.filter_app, Hno; [|by rewrite app_nil_r].
  reflexivity.
Qed.

(** X21: an identifier that the discovered services do not know ends a
    typed read and a typed write with [BleakError], after the discovery
    alone: no descriptor and no characteristic is read or written. *)
Theorem unknown_characteristic table self key coll data response :
  BleakTypedClient.services self = Ok coll ->
  coll key = None ->
  BleakTypedClient.read_gatt_char_typed table self (Identifier key)
  = GATT [GetServices] (Raise BleakError) /\
  BleakTypedClient.write_gatt_char_typed table self (Identifier key) data response
  = GATT [GetServices] (Raise BleakError).
Proof.
  intros Hs Hk.
  unfold BleakTypedClient.read_gatt_char_typed, BleakTypedClient.write_gatt_char_typed.
  rewrite typed_get_marshaller_identifier, Hs, Hk. by split.
Qed.

(** X22: a characteristic given by an identifier that the services know
    resolves, after the discovery, exactly as the characteristic object
    does. *)
Theorem identifier_resolves_as_object table self key coll char :
  BleakTypedClient.services self = Ok coll ->
  coll key = Some char ->
  BleakTypedClient.get_marshaller table self (Identifier key)
  = GATT (GetServices
            :: gatt_trace (BleakTypedClient.get_marshaller table self (Characteristic char)))
         (gatt_outcome (BleakTypedClient.get_marshaller table self (Characteristic char))).
Proof. intros Hs Hk. by rewrite typed_get_marshaller_identifier, Hs, Hk. Qed.

Lemma typed_resolution_without_format table self char :
  BleakGATTCharacteristic.get_descriptor char descr_2904_uuid = None ->
  no_override table (BleakGATTCharacteristic.uuid char) ->
  BleakTypedClient.get_marshaller table self (Characteristic char)
  = GATT [Resolve (Warning (no_marshaller_found (BleakTypedClient.base self)
                              (BleakGATTCharacteristic.uuid char)))]
         (Ok Passthrough).
Proof.
  intros Hd Hno. rewrite typed_get_marshaller_characteristic, Hd.
  unfold BleakGATTMarshaller.get_marshaller.
  by rewrite get_marshaller_no_override.
Qed.

(** X23: for a characteristic with no presentation-format descriptor and
    no override, a typed read warns once and returns the bytes read from the
    characteristic as they are. *)
Theorem typed_read_without_format table self char b :
  BleakGATTCharacteristic.get_descriptor char descr_2904_uuid = None ->
  no_override table (BleakGATTCharacteristic.uuid char) ->
  BleakTypedClient.char_value self (Characteristic char) = Ok b ->
  BleakTypedClient.read_gatt_char_typed table self (Characteristic char)
  = GATT [Resolve (Warning (no_marshaller_found (BleakTypedClient.base self)
                              (BleakGATTCharacteristic.uuid char)));
          ReadChar (Characteristic char)]
         (Ok (VBytes b)).
Proof.
  intros Hd Hno Hv. unfold BleakTypedClient.read_gatt_char_typed.
  rewrite typed_resolution_without_format by done.
  unfold mbind, gatt_bind, BleakTypedClient.read_gatt_char.
  cbn [gatt_outcome gatt_trace]. by rewrite Hv.
Qed.

(** X24: for a characteristic with no presentation-format descriptor and
    no override, a typed write of a [str] value raises [TypeError] after the
    warning and writes nothing. *)
Theorem typed_write_str_without_format table self char s response :
  BleakGATTCharacteristic.get_descriptor char descr_2904_uuid = None ->
  no_override table (BleakGATTCharacteristic.uuid char) ->
  BleakTypedClient.write_gatt_char_typed table self (Characteristic char) (VStr s) response
  = GATT [Resolve (Warning (no_marshaller_found (BleakTypedClient.base self)
                              (BleakGATTCharacteristic.uuid char)))]
         (Raise TypeError).
Proof.
  intros Hd Hno. unfold BleakTypedClient.write_gatt_char_typed.
  by rewrite typed_resolution_without_format.
Qed.

End TypedClient.

Section TypedFixedWidth.
Context `{NumericText}.

Lemma unmarshall_wrong_length code f t n fmt e u b :
  Table_2904_bytes_format !! code = Some (f, t, Some n, fmt) ->
  len b <> n ->
  BleakGATTPackMarshaller.unmarshall (BleakGATTPackMarshaller.Build_t f t (Some n) fmt e u) b
  = Raise AssertionError.
Proof.
  intros Hl Hlen. pose proof (registry_width _ _ _ Hl eq_refl) as Hn.
  unfold BleakGATTPackMarshaller.unmarshall.
  cbn [BleakGATTPackMarshaller.length py_not].
  destruct (Z.eqb_spec n 0); [lia|].
  rewrite decide_False; [done|]. by intros [= ?].
Qed.

(** Resolution for a characteristic whose descriptor holds a record of a
    registered format with exponent 0. *)
Lemma typed_resolution_registered table self char d record code f t n fmt u ns ds :
  BleakGATTCharacteristic.get_descriptor char descr_2904_uuid = Some d ->
  no_override table (BleakGATTCharacteristic.uuid char) ->
  descriptor_value (BleakTypedClient.base self) (handle d) = Ok record ->
  struct_unpack "<BbHBH" record = Ok [VInt code; VInt 0; VInt u; VInt ns; VInt ds] ->
  Table_2904_bytes_format !! code = Some (f, t, n, fmt) ->
  BleakTypedClient.get_marshaller table self (Characteristic char)
  = GATT [Resolve (ReadDescriptor (handle d))]
         (Ok (Pack (BleakGATTPackMarshaller.Build_t f t n fmt 0 u))).
Proof.
  intros Hd Hno Hread Hrec Hl. rewrite typed_get_marshaller_characteristic, Hd.
  by rewrite (get_marshaller_record _ _ _ _ _ _ _ _ _ _ Hno Hread Hrec), Hl.
Qed.

(** X25: for a characteristic whose descriptor names a registered
    fixed-width format with exponent 0, whatever a typed write writes is a
    byte string of exactly the width of the format. *)
Theorem typed_write_fixed_width table self char d record code f t n fmt u ns ds
    data response spec' data' response' :
  BleakGATTCharacteristic.get_descriptor char descr_2904_uuid = Some d ->
  no_override table (BleakGATTCharacteristic.uuid char) ->
  descriptor_value (BleakTypedClient.base self) (handle d) = Ok record ->
  struct_unpack "<BbHBH" record = Ok [VInt code; VInt 0; VInt u; VInt ns; VInt ds] ->
  Table_2904_bytes_format !! code = Some (f, t, Some n, fmt) ->
  In (WriteChar spec' data' response')
     (gatt_trace (BleakTypedClient.write_gatt_char_typed table self (Characteristic char)
                    data response)) ->
  exists out, data' = VBytes out /\ len out = n.
Proof.
  intros Hd Hno Hread Hrec Hl. unfold BleakTypedClient.write_gatt_char_typed.
  rewrite (typed_resolution_registered _ _ _ _ _ _ _ _ _ _ _ _ _ Hd Hno Hread Hrec Hl).
  unfold mbind, gatt_bind, gatt_lift. cbn [gatt_outcome gatt_trace marshall].
  destruct (BleakGATTPackMarshaller.marshall _ data) as [r|] eqn:E;
    cbn [gatt_outcome gatt_trace BleakTypedClient.write_gatt_char app].
  - intros [[=]|[[= _ <- _]|[]]]. by eapply marshall_fixed_result.
  - by intros [[=]|[]].
Qed.

(** X26: for a characteristic whose descriptor names a registered
    fixed-width format with exponent 0, a typed read of a value whose length
    is not the width of the format raises [AssertionError], after the read
    of the descriptor and the read of the characteristic. *)
Theorem typed_read_wrong_width table self char d record code f t n fmt u ns ds b :
  BleakGATTCharacteristic.get_descriptor char descr_2904_uuid = Some d ->
  no_override table (BleakGATTCharacteristic.uuid char) ->
  descriptor_value (BleakTypedClient.base self) (handle d) = Ok record ->
  struct_unpack "<BbHBH" record = Ok [VInt code; VInt 0; VInt u; VInt ns; VInt ds] ->
  Table_2904_bytes_format !! code = Some (f, t, Some n, fmt) ->
  BleakTypedClient.char_value self (Characteristic char) = Ok b ->
  len b <> n ->
  BleakTypedClient.read_gatt_char_typed table self (Characteristic char)
  = GATT [Resolve (ReadDescriptor (handle d)); ReadChar (Characteristic char)]
         (Raise AssertionError).
Proof.
  intros Hd Hno Hread Hrec Hl Hv Hlen. unfold BleakTypedClient.read_gatt_char_typed.
  rewrite (typed_resolution_registered _ _ _ _ _ _ _ _ _ _ _ _ _ Hd Hno Hread Hrec Hl).
  unfold mbind, gatt_bind, gatt_lift, BleakTypedClient.read_gatt_char.
  cbn [gatt_outcome gatt_trace]. rewrite Hv. cbn [gatt_outcome gatt_trace unmarshall].
  by rewrite (unmarshall_wrong_length code).
Qed.

(** X27: for a characteristic whose descriptor names a registered integer
    format with exponent 0, a typed read of a value of the width of the
    format returns the integer that the bytes hold, least significant byte
    first, signed or unsigned as the layout of the entry says. *)
Theorem typed_read_integer table self char d record code c k u ns ds b :
  BleakGATTCharacteristic.get_descriptor char descr_2904_uuid = Some d ->
  no_override table (BleakGATTCharacteristic.uuid char) ->
  descriptor_value (BleakTypedClient.base self) (handle d) = Ok record ->
  struct_unpack "<BbHBH" record = Ok [VInt code; VInt 0; VInt u; VInt ns; VInt ds] ->
  Table_2904_bytes_format !! code = Some (integer_entry c k) ->
  c ∈ integer_codes -> code_size c = Some k ->
  BleakTypedClient.char_value self (Characteristic char) = Ok b ->
  length b = k ->
  BleakTypedClient.read_gatt_char_typed table self (Characteristic char)
  = GATT [Resolve (ReadDescriptor (handle d)); ReadChar (Characteristic char)]
         (Ok (VInt (unpack_int (code_signed c) b))).
Proof.
  intros Hd Hno Hread Hrec Hl Hc Hk Hv Hlen. unfold BleakTypedClient.read_gatt_char_typed.
  rewrite (typed_resolution_registered _ _ _ _ _ _ _ _ _ _ _ _ _ Hd Hno Hread Hrec Hl).
  unfold mbind, gatt_bind, gatt_lift, BleakTypedClient.read_gatt_char.
  cbn [gatt_outcome gatt_trace]. rewrite Hv. cbn [gatt_outcome gatt_trace unmarshall].
  by rewrite (unmarshall_integer c k u) by done.
Qed.

End TypedFixedWidth.

(** ** The further theorems at concrete inputs *)

Lemma signalling_nan_is_quieted_witness :
  exists v out,
    unmarshall (Pack (BleakGATTPackMarshaller.Build_t
                        (@py_float rejecting_text) (@py_float rejecting_text)
                        (Some 4) (Some "<f"%string) 0 0)) [x01; x00; x80; x7f] = Ok v /\
    marshall (Pack (BleakGATTPackMarshaller.Build_t
                      (@py_float rejecting_text) (@py_float rejecting_text)
                      (Some 4) (Some "<f"%string) 0 0)) v = Ok (VBytes out) /\
    le_int out = le_int [x01; x00; x80; x7f] + 2 ^ 22 /\
    out <> [x01; x00; x80; x7f].
Proof.
  apply (@signalling_nan_is_quieted rejecting_text
           (@py_float rejecting_text) (@py_float rejecting_text) 4 (Some "<f"%string) 0).
  - apply Table_2904_lookup. find_item.
  - reflexivity.
  - reflexivity.
  - reflexivity.
Defined.

Lemma record_field_layout_witness :
  @BleakGATTMarshaller.get_marshaller rejecting_text ∅ example_client
    (str_lit "2a19") (Some {| handle := 6 |})
  = IO [ReadDescriptor 6] (Raise NameError).
Proof.
  apply (@record_field_layout rejecting_text ∅ example_client (str_lit "2a19")
           {| handle := 6 |} x08 x02 x00 x27 x01 x00 x00).
  - right. reflexivity.
  - reflexivity.
Defined.

Lemma registry_width_is_packed_size_witness :
  len [x05; x00; x00; x00] = 4.
Proof.
  apply (@registry_width_is_packed_size rejecting_text 8
           (@py_int rejecting_text) (@py_int rejecting_text) 4
           (Some "<I"%string) (VInt 5)).
  - apply Table_2904_lookup. find_item.
  - reflexivity.
Defined.

Lemma unmarshall_fixed_total_witness :
  exists v,
    unmarshall (Pack (BleakGATTPackMarshaller.Build_t
                        (@py_float rejecting_text) (@py_float rejecting_text)
                        (Some 8) (Some "<d"%string) 0 0))
      [x00; x00; x00; x00; x00; x00; xf0; x3f] = Ok v.
Proof.
  apply (@unmarshall_fixed_total rejecting_text 21
           (@py_float rejecting_text) (@py_float rejecting_text) 8 (Some "<d"%string) 0).
  - apply Table_2904_lookup. find_item.
  - reflexivity.
  - reflexivity.
Defined.

Lemma unknown_characteristic_witness :
  @BleakTypedClient.read_gatt_char_typed rejecting_text ∅ example_typed_client
    (Identifier (VStr (str_lit "ffff")))
  = GATT [GetServices] (Raise BleakError) /\
  @BleakTypedClient.write_gatt_char_typed rejecting_text ∅ example_typed_client
    (Identifier (VStr (str_lit "ffff"))) (VInt 1) true
  = GATT [GetServices] (Raise BleakError).
Proof.
  eapply (@unknown_characteristic rejecting_text ∅ example_typed_client
            (VStr (str_lit "ffff"))).
  - reflexivity.
  - reflexivity.
Defined.

Lemma identifier_resolves_as_object_witness :
  @BleakTypedClient.get_marshaller rejecting_text ∅ example_typed_client
    (Identifier (VStr (str_lit "2a19")))
  = GATT (GetServices
            :: gatt_trace (@BleakTypedClient.get_marshaller rejecting_text ∅
                             example_typed_client (Characteristic example_char)))
         (gatt_outcome (@BleakTypedClient.get_marshaller rejecting_text ∅
                          example_typed_client (Characteristic example_char))).
Proof.
  eapply (@identifier_resolves_as_object rejecting_text ∅ example_typed_client
            (VStr (str_lit "2a19"))).
  - reflexivity.
  - reflexivity.
Defined.

Lemma typed_read_without_format_witness :
  @BleakTypedClient.read_gatt_char_typed rejecting_text ∅ example_typed_client
    (Characteristic example_plain_char)
  = GATT [Resolve (Warning (no_marshaller_found (BleakTypedClient.base example_typed_client)
                              (str_lit "2a19")));
          ReadChar (Characteristic example_plain_char)]
         (Ok (VBytes [x2c; x01])).
Proof.
  apply (@typed_read_without_format rejecting_text ∅ example_typed_client
           example_plain_char [x2c; x01]).
  - reflexivity.
  - right. reflexivity.
  - reflexivity.
Defined.

Lemma typed_write_str_without_format_witness :
  @BleakTypedClient.write_gatt_char_typed rejecting_text ∅ example_typed_client
    (Characteristic example_plain_char) (VStr (str_lit "300")) true
  = GATT [Resolve (Warning (no_marshaller_found (BleakTypedClient.base example_typed_client)
                              (str_lit "2a19")))]
         (Raise TypeError).
Proof.
  apply (@typed_write_str_without_format rejecting_text ∅ example_typed_client
           example_plain_char (str_lit "300") true).
  - reflexivity.
  - right. reflexivity.
Defined.

Lemma typed_write_fixed_width_witness :
  exists out, VBytes [x2c; x01] = VBytes out /\ len out = 2.
Proof.
  apply (@typed_write_fixed_width rejecting_text ∅ example_typed_client example_char
           {| handle := 3 |} [x06; x00; x00; x27; x01; x00; x00] 6
           (@py_int rejecting_text) (@py_int rejecting_text) 2 (Some "<H"%string)
           9984 1 0 (VInt 300) true
           (Characteristic example_char) (VBytes [x2c; x01]) true).
  - reflexivity.
  - right. reflexivity.
  - reflexivity.
  - reflexivity.
  - apply Table_2904_lookup. find_item.
  - right. left. reflexivity.
Defined.

Lemma typed_read_wrong_width_witness :
  @BleakTypedClient.read_gatt_char_typed rejecting_text ∅
    {| BleakTypedClient.base :=
         {| address := [];
            descriptor_value := fun _ => Ok [x08; x00; x00; x27; x01; x00; x00] |};
       BleakTypedClient.services := Raise BleakError;
       BleakTypedClient.char_value := fun _ => Ok [x2c; x01];
       BleakTypedClient.write_result := fun _ _ _ => Ok () |}
    (Characteristic example_char)
  = GATT [Resolve (ReadDescriptor 3); ReadChar (Characteristic example_char)]
         (Raise AssertionError).
Proof.
  apply (@typed_read_wrong_width rejecting_text ∅ _ example_char
           {| handle := 3 |} [x08; x00; x00; x27; x01; x00; x00] 8
           (@py_int rejecting_text) (@py_int rejecting_text) 4 (Some "<I"%string)
           9984 1 0 [x2c; x01]).
  - reflexivity.
  - right. reflexivity.
  - reflexivity.
  - reflexivity.
  - apply Table_2904_lookup. find_item.
  - reflexivity.
  - discriminate.
Defined.

Lemma typed_read_integer_witness :
  @BleakTypedClient.read_gatt_char_typed rejecting_text ∅ example_typed_client
    (Characteristic example_char)
  = GATT [Resolve (ReadDescriptor 3); ReadChar (Characteristic example_char)]
         (Ok (VInt (unpack_int false [x2c; x01]))).
Proof.
  apply (@typed_read_integer rejecting_text ∅ example_typed_client example_char
           {| handle := 3 |} [x06; x00; x00; x27; x01; x00; x00] 6 "H"%char 2
           9984 1 0 [x2c; x01]).
  - reflexivity.
  - right. reflexivity.
  - reflexivity.
  - reflexivity.
  - apply Table_2904_lookup. find_item.
  - unfold integer_codes. decide_list.
  - reflexivity.
  - reflexivity.
  - reflexivity.
Defined.

(** ** Exponents and typed operations on integers *)

Section TypedIntegers.
Context `{NumericText}.

(** X12: on an instance of an integer entry whose exponent is not 0,
    whatever [unmarshall] returns for a byte string of the width of the
    entry is a [float], for a positive exponent too. *)
Theorem unmarshall_exponent_is_float c n e u b v :
  c ∈ integer_codes -> code_size c = Some n -> e <> 0 ->
  length b = n ->
  BleakGATTPackMarshaller.unmarshall
    (BleakGATTPackMarshaller.Build_t py_int py_int (Some (Z.of_nat n))
       (Some (single_format c)) e u) b = Ok v ->
  exists f, v = VFloat f.
Proof.
  intros Hc Hn He Hlen. pose proof (code_size_integer _ _ Hc Hn) as Hpos.
  unfold BleakGATTPackMarshaller.unmarshall. cbn [BleakGATTPackMarshaller.length
    BleakGATTPackMarshaller.format BleakGATTPackMarshaller.topython
    BleakGATTPackMarshaller.exponent py_not].
  destruct (Z.eqb_spec (Z.of_nat n) 0); [lia|].
  unfold len. rewrite Hlen, decide_True by done.
  unfold BleakGATTPackMarshaller.unpack.
  rewrite (struct_unpack_single c n) by done. cbn [mbind result_bind].
  rewrite unpack_field_integer by done. cbn [py_int mbind result_bind].
  destruct (Z.eqb_spec e 0); [done|]. cbn [negb].
  destruct (float_pow10 e) as [scale|]; [|done]. cbn [mbind result_bind].
  unfold py_mul. cbn [as_number number_to_float].
  destruct (float_of_Z _) as [fz|]; [|done]. cbn. intros [= <-]. eauto.
Qed.

(** X28: a characteristic whose descriptor names a registered format and an
    exponent other than 0 can be neither read nor written through the typed
    client: both operations raise [NameError] after the read of the
    descriptor, without touching the characteristic. *)
Theorem typed_nonzero_exponent table self char d record code entry e u ns ds
    data response :
  BleakGATTCharacteristic.get_descriptor char descr_2904_uuid = Some d ->
  no_override table (BleakGATTCharacteristic.uuid char) ->
  descriptor_value (BleakTypedClient.base self) (handle d) = Ok record ->
  struct_unpack "<BbHBH" record = Ok [VInt code; VInt e; VInt u; VInt ns; VInt ds] ->
  Table_2904_bytes_format !! code = Some entry ->
  e <> 0 ->
  BleakTypedClient.read_gatt_char_typed table self (Characteristic char)
  = GATT [Resolve (ReadDescriptor (handle d))] (Raise NameError) /\
  BleakTypedClient.write_gatt_char_typed table self (Characteristic char) data response
  = GATT [Resolve (ReadDescriptor (handle d))] (Raise NameError).
Proof.
  intros Hd Hno Hread Hrec Hl He.
  assert (BleakTypedClient.get_marshaller table self (Characteristic char)
          = GATT [Resolve (ReadDescriptor (handle d))] (Raise NameError)) as Hres.
  { rewrite typed_get_marshaller_characteristic, Hd.
    rewrite (get_marshaller_record _ _ _ _ _ _ _ _ _ _ Hno Hread Hrec), Hl.
    destruct entry as [[[f t] l] fmt]. cbn.
    by destruct (Z.eqb_spec e 0). }
  unfold BleakTypedClient.read_gatt_char_typed, BleakTypedClient.write_gatt_char_typed.
  rewrite Hres. by split.
Qed.

(** X29: for a characteristic whose descriptor names a registered integer
    format with exponent 0, a typed write of an integer in the range of the
    layout writes once, the bytes of the integer, least significant first
    and as many as the width, and ends as the write of the transport ends. *)
Theorem typed_write_integer table self char d record code c k u ns ds z response :
  BleakGATTCharacteristic.get_descriptor char descr_2904_uuid = Some d ->
  no_override table (BleakGATTCharacteristic.uuid char) ->
  descriptor_value (BleakTypedClient.base self) (handle d) = Ok record ->
  struct_unpack "<BbHBH" record = Ok [VInt code; VInt 0; VInt u; VInt ns; VInt ds] ->
  Table_2904_bytes_format !! code = Some (integer_entry c k) ->
  c ∈ integer_codes -> code_size c = Some k ->
  layout_range (code_signed c) k z ->
  BleakTypedClient.write_gatt_char_typed table self (Characteristic char) (VInt z) response
  = GATT [Resolve (ReadDescriptor (handle d));
          WriteChar (Characteristic char) (VBytes (le_bytes k z)) response]
         (BleakTypedClient.write_result self (Characteristic char)
            (VBytes (le_bytes k z)) response).
Proof.
  intros Hd Hno Hread Hrec Hl Hc Hk Hz. pose proof (code_size_integer _ _ Hc Hk) as Hpos.
  unfold BleakTypedClient.write_gatt_char_typed.
  rewrite (typed_resolution_registered _ _ _ _ _ _ _ _ _ _ _ _ _ Hd Hno Hread Hrec Hl).
  unfold mbind, gatt_bind, gatt_lift. cbn [gatt_outcome gatt_trace marshall].
  rewrite (marshall_integer c k u) by done.
  rewrite pack_int_in_range by done. reflexivity.
Qed.

End TypedIntegers.

Lemma unmarshall_exponent_is_float_witness :
  exists f, VFloat 0x40FE208000000000 = VFloat f.
Proof.
  apply (@unmarshall_exponent_is_float rejecting_text "I"%char 4 2 0
           [xd2; x04; x00; x00]).
  - unfold integer_codes. decide_list.
  - reflexivity.
  - lia.
  - reflexivity.
  - vm_compute. reflexivity.
Defined.

Lemma typed_nonzero_exponent_witness :
  @BleakTypedClient.read_gatt_char_typed rejecting_text ∅
    {| BleakTypedClient.base := example_client;
       BleakTypedClient.services := Raise BleakError;
       BleakTypedClient.char_value := fun _ => Ok [x2c; x01];
       BleakTypedClient.write_result := fun _ _ _ => Ok () |}
    (Characteristic
       {| BleakGATTCharacteristic.uuid := str_lit "2a19";
          BleakGATTCharacteristic.get_descriptor := fun _ => Some {| handle := 6 |} |})
  = GATT [Resolve (ReadDescriptor 6)] (Raise NameError) /\
  @BleakTypedClient.write_gatt_char_typed rejecting_text ∅
    {| BleakTypedClient.base := example_client;
       BleakTypedClient.services := Raise BleakError;
       BleakTypedClient.char_value := fun _ => Ok [x2c; x01];
       BleakTypedClient.write_result := fun _ _ _ => Ok () |}
    (Characteristic
       {| BleakGATTCharacteristic.uuid := str_lit "2a19";
          BleakGATTCharacteristic.get_descriptor := fun _ => Some {| handle := 6 |} |})
    (VInt 123400) true
  = GATT [Resolve (ReadDescriptor 6)] (Raise NameError).
Proof.
  apply (@typed_nonzero_exponent rejecting_text ∅ _ _ {| handle := 6 |}
           [x08; x02; x00; x27; x01; x00; x00] 8
           (@py_int rejecting_text, @py_int rejecting_text, Some 4, Some "<I"%string)
           2 9984 1 0).
  - reflexivity.
  - right. reflexivity.
  - reflexivity.
  - reflexivity.
  - apply Table_2904_lookup. find_item.
  - lia.
Defined.

Lemma typed_write_integer_witness :
  @BleakTypedClient.write_gatt_char_typed rejecting_text ∅ example_typed_client
    (Characteristic example_char) (VInt 300) true
  = GATT [Resolve (ReadDescriptor 3);
          WriteChar (Characteristic example_char) (VBytes (le_bytes 2 300)) true]
         (Ok ()).
Proof.
  apply (@typed_write_integer rejecting_text ∅ example_typed_client example_char
           {| handle := 3 |} [x06; x00; x00; x27; x01; x00; x00] 6 "H"%char 2
           9984 1 0 300 true).
  - reflexivity.
  - right. reflexivity.
  - reflexivity.
  - reflexivity.
  - apply Table_2904_lookup. find_item.
  - unfold integer_codes. decide_list.
  - reflexivity.
  - cbn. lia.
Defined.
